(** * Task routes and user routes of the primetrade backend

    A shallow embedding of [backend/routes/tasks.js] and of the account
    deactivation handler of [backend/routes/users.js], together with the
    part of the document store (Mongoose over MongoDB) and of the
    JavaScript runtime the handlers rely on.

    Conventions of the embedding:
    - a collection is the list of its documents, in insertion order;
    - a handler is a function from the request and the database to an
      [Outcome] (the response that is sent, or the exception handed to
      [next]) and, when it writes, the database after the request;
    - a request is handled on its own: nothing else writes to the
      database in between;
    - object identifiers are well-formed ObjectIds, modelled as [N];
    - strings are sequences of ASCII characters;
    - instants are milliseconds since the epoch, modelled as [Z];
    - timestamps the store maintains by itself ([updatedAt]) are left out. *)

From Stdlib Require Import ZArith NArith List Bool Ascii String Lia Arith.
From Stdlib Require Import Permutation DecimalString Sorted.
Import ListNotations.

Local Open Scope string_scope.
Local Open Scope Z_scope.

(** ** JavaScript runtime *)

Module Js.

(** Exceptions a handler's [try] block can catch and pass to [next]. *)
Inductive Exn : Type :=
| SyntaxError      (* new RegExp on an ill-formed pattern *)
| CastError        (* Mongoose could not cast a value to the schema type *)
| ValidationError  (* a schema validator refused a value *)
| MongoError.      (* the server refused the command *)

Inductive Result (A : Type) : Type :=
| Ok (a : A)
| Throw (e : Exn).
Arguments Ok {A} a.
Arguments Throw {A} e.

Definition bind {A B : Type} (m : Result A) (k : A -> Result B) : Result B :=
  match m with
  | Ok a => k a
  | Throw e => Throw e
  end.

(** Truthiness of a string that may be absent: [undefined] and the
    empty string are falsy. *)
Definition truthy (s : option string) : option string :=
  match s with
  | Some EmptyString => None
  | Some s' => Some s'
  | None => None
  end.

(** [x = d] in a destructuring pattern: the default is used only when
    the property is [undefined]. *)
Definition default {A : Type} (d : A) (x : option A) : A :=
  match x with
  | Some a => a
  | None => d
  end.

(** [Math.ceil(a / b)] on integers: [None] stands for a result that is
    not finite (division by zero), which JSON serialises as [null]. *)
Definition ceil_div (a b : Z) : option Z :=
  if b =? 0 then None else Some (- ((- a) / b)).

(** JSON values, and plain objects with string keys in key insertion
    order. *)
#[warnings="-register-all"]
Inductive Json : Type :=
| JNull
| JBool (b : bool)
| JNum (n : Z)
| JStr (s : string)
| JArr (l : list Json)
| JObj (o : list (string * Json)).

Definition Obj (V : Type) : Type := list (string * V).

(** [o[k]] *)
Fixpoint obj_get {V : Type} (k : string) (o : Obj V) : option V :=
  match o with
  | [] => None
  | (k', v) :: o' => if String.eqb k k' then Some v else obj_get k o'
  end.

(** [{ ...o, [k]: v }]: the key keeps its place when [o] has it, and is
    added at the end otherwise. *)
Fixpoint obj_set {V : Type} (k : string) (v : V) (o : Obj V) : Obj V :=
  match o with
  | [] => [(k, v)]
  | (k', v') :: o' =>
      if String.eqb k k' then (k', v) :: o' else (k', v') :: obj_set k v o'
  end.

End Js.

Notation "x <- m ;; k" := (Js.bind m (fun x => k))
  (at level 61, m at next level, right associativity).

(** ** Regular expressions with the [i] flag

    The handlers build [new RegExp(p, 'i')] and put it in a filter; the
    store evaluates it on the fields of the documents. The embedding
    covers the patterns made of ordinary characters and of the wildcard
    [.]; on every other pattern it defers to [host], the regular
    expression engine, about which nothing is assumed: [host p] is either
    the exception raised for [p] or the predicate [p] denotes. *)

Module RegExp.

Inductive atom : Type :=
| Chr (c : ascii)   (* a pattern character that stands for itself *)
| Dot.              (* [.]: any character but a newline *)

(** The characters with a meaning in the pattern syntax. *)
Definition syntax_chars : list ascii :=
  list_ascii_of_string "^$\.*+?()[]{}|".

Definition is_syntax_char (c : ascii) : bool :=
  existsb (Ascii.eqb c) syntax_chars.

(** Parse a pattern of the modelled fragment. *)
Fixpoint parse (p : string) : option (list atom) :=
  match p with
  | EmptyString => Some []
  | String c p' =>
      match parse p' with
      | None => None
      | Some r =>
          if Ascii.eqb c "." then Some (Dot :: r)
          else if is_syntax_char c then None
          else Some (Chr c :: r)
      end
  end.

(** Canonicalisation of a character under the [i] flag: a lower case
    letter becomes its upper case. *)
Definition canonicalize (c : ascii) : ascii :=
  let n := nat_of_ascii c in
  if (Nat.leb 97 n && Nat.leb n 122)%bool then ascii_of_nat (n - 32) else c.

Definition is_newline (c : ascii) : bool := Ascii.eqb c "010".

Definition atom_matches (a : atom) (c : ascii) : bool :=
  match a with
  | Chr x => Ascii.eqb (canonicalize x) (canonicalize c)
  | Dot => negb (is_newline c)
  end.

(** The atoms match a prefix of the subject. *)
Fixpoint match_here (r : list atom) (s : string) : bool :=
  match r, s with
  | [], _ => true
  | _ :: _, EmptyString => false
  | a :: r', String c s' => atom_matches a c && match_here r' s'
  end.

(** The expression has no anchor: a match may start anywhere in the
    subject. *)
Fixpoint search (r : list atom) (s : string) : bool :=
  match_here r s
  || match s with
     | EmptyString => false
     | String _ s' => search r s'
     end.

(** A compiled expression, as the predicate that tests a subject. *)
Definition Regex : Type := string -> bool.

Section Host.
Variable host : string -> Js.Result Regex.

(** [new RegExp(p, 'i')] *)
Definition new_RegExp_i (p : string) : Js.Result Regex :=
  match parse p with
  | Some r => Js.Ok (search r)
  | None => host p
  end.
End Host.

(** The atoms of a pattern in which every character stands for itself. *)
Fixpoint literal (s : string) : list atom :=
  match s with
  | EmptyString => []
  | String c s' => Chr c :: literal s'
  end.

(** No character of [s] has a meaning in the pattern syntax. *)
Fixpoint plain (s : string) : bool :=
  match s with
  | EmptyString => true
  | String c s' => negb (is_syntax_char c) && plain s'
  end.

(** The wording of the specification: [s] occurs in [t] as a substring,
    letter case ignored. *)
Fixpoint upper (s : string) : string :=
  match s with
  | EmptyString => EmptyString
  | String c s' => String (canonicalize c) (upper s')
  end.

Definition ci_substring (s t : string) : Prop :=
  exists a b : string, upper t = a ++ upper s ++ b.

End RegExp.

(** ** Documents

    The schemas are those of the data model section of
    [backend/README.md]. *)

Definition Id : Type := N.

Module UserDoc.

Record t : Type := mk {
  _id : Id;
  name : string;
  email : string;
  password : string;
  avatar : option string;
  role : string;
  isActive : bool;
  lastLogin : option Z;
  createdAt : Z
}.


End UserDoc.

Module TaskDoc.

Record t : Type := mk {
  _id : Id;
  title : string;
  description : option string;
  status : string;
  priority : string;
  category : option string;
  dueDate : option Z;
  completedAt : option Z;
  tags : list string;
  user : Id;
  isArchived : bool;
  createdAt : Z
}.

Definition set_title (x : string) (d : t) : t :=
  mk (_id d) x (description d) (status d) (priority d) (category d)
     (dueDate d) (completedAt d) (tags d) (user d) (isArchived d) (createdAt d).

Definition set_description (x : option string) (d : t) : t :=
  mk (_id d) (title d) x (status d) (priority d) (category d)
     (dueDate d) (completedAt d) (tags d) (user d) (isArchived d) (createdAt d).

Definition set_status (x : string) (d : t) : t :=
  mk (_id d) (title d) (description d) x (priority d) (category d)
     (dueDate d) (completedAt d) (tags d) (user d) (isArchived d) (createdAt d).

Definition set_priority (x : string) (d : t) : t :=
  mk (_id d) (title d) (description d) (status d) x (category d)
     (dueDate d) (completedAt d) (tags d) (user d) (isArchived d) (createdAt d).

Definition set_category (x : option string) (d : t) : t :=
  mk (_id d) (title d) (description d) (status d) (priority d) x
     (dueDate d) (completedAt d) (tags d) (user d) (isArchived d) (createdAt d).

Definition set_dueDate (x : option Z) (d : t) : t :=
  mk (_id d) (title d) (description d) (status d) (priority d) (category d)
     x (completedAt d) (tags d) (user d) (isArchived d) (createdAt d).

Definition set_completedAt (x : option Z) (d : t) : t :=
  mk (_id d) (title d) (description d) (status d) (priority d) (category d)
     (dueDate d) x (tags d) (user d) (isArchived d) (createdAt d).

Definition set_tags (x : list string) (d : t) : t :=
  mk (_id d) (title d) (description d) (status d) (priority d) (category d)
     (dueDate d) (completedAt d) x (user d) (isArchived d) (createdAt d).

Definition set_user (x : Id) (d : t) : t :=
  mk (_id d) (title d) (description d) (status d) (priority d) (category d)
     (dueDate d) (completedAt d) (tags d) x (isArchived d) (createdAt d).

Definition set_isArchived (x : bool) (d : t) : t :=
  mk (_id d) (title d) (description d) (status d) (priority d) (category d)
     (dueDate d) (completedAt d) (tags d) (user d) x (createdAt d).

Definition option_eqb {A : Type} (e : A -> A -> bool) (x y : option A) : bool :=
  match x, y with
  | Some a, Some b => e a b
  | None, None => true
  | _, _ => false
  end.

Fixpoint list_eqb {A : Type} (e : A -> A -> bool) (x y : list A) : bool :=
  match x, y with
  | [], [] => true
  | a :: x', b :: y' => andb (e a b) (list_eqb e x' y')
  | _, _ => false
  end.

(** Two documents hold the same values. *)
Definition eqb (a b : t) : bool :=
  N.eqb (_id a) (_id b)
  && String.eqb (title a) (title b)
  && option_eqb String.eqb (description a) (description b)
  && String.eqb (status a) (status b)
  && String.eqb (priority a) (priority b)
  && option_eqb String.eqb (category a) (category b)
  && option_eqb Z.eqb (dueDate a) (dueDate b)
  && option_eqb Z.eqb (completedAt a) (completedAt b)
  && list_eqb String.eqb (tags a) (tags b)
  && N.eqb (user a) (user b)
  && Bool.eqb (isArchived a) (isArchived b)
  && Z.eqb (createdAt a) (createdAt b).

End TaskDoc.

Record Db : Type := mkDb {
  users : list UserDoc.t;
  tasks : list TaskDoc.t
}.

(** ** The document store

    Filters, cursors and updates of the [Task] and [User] models, as far
    as the handlers use them. *)

Module Mongo.

(** One key of a filter document on tasks, with its condition. *)
#[warnings="-register-all"]
Inductive Cond : Type :=
| IdIs (i : Id)                     (* _id: i *)
| IdIn (l : list Id)                (* _id: { $in: l } *)
| UserIs (u : Id)                   (* user: u *)
| ArchivedIs (b : bool)             (* isArchived: b *)
| ArchivedIn (bs : list bool)       (* isArchived: { $in: bs } *)
| StatusIs (s : string)             (* status: s *)
| StatusNin (l : list string)       (* status: { $nin: l } *)
| PriorityIs (s : string)           (* priority: s *)
| CategoryRe (r : RegExp.Regex)     (* category: r *)
| TitleRe (r : RegExp.Regex)        (* title: r *)
| DescriptionRe (r : RegExp.Regex)  (* description: r *)
| TagsInRe (rs : list RegExp.Regex) (* tags: { $in: rs } *)
| DueLt (d : Z)                     (* dueDate: { $lt: d } *)
| DueGteLt (lo hi : Z)              (* dueDate: { $gte: lo, $lt: hi } *)
| Or (cs : list Cond).              (* $or: cs *)

(** A filter document: the conditions of all its keys must hold. *)
Definition Filter : Type := list Cond.

(** A regular expression on a path that may be missing: a missing value
    matches no expression. *)
Definition test_opt (r : RegExp.Regex) (s : option string) : bool :=
  match s with
  | Some x => r x
  | None => false
  end.

Fixpoint holds (c : Cond) (d : TaskDoc.t) : bool :=
  match c with
  | IdIs i => N.eqb (TaskDoc._id d) i
  | IdIn l => existsb (N.eqb (TaskDoc._id d)) l
  | UserIs u => N.eqb (TaskDoc.user d) u
  | ArchivedIs b => Bool.eqb (TaskDoc.isArchived d) b
  | ArchivedIn bs => existsb (Bool.eqb (TaskDoc.isArchived d)) bs
  | StatusIs s => String.eqb (TaskDoc.status d) s
  | StatusNin l => negb (existsb (String.eqb (TaskDoc.status d)) l)
  | PriorityIs s => String.eqb (TaskDoc.priority d) s
  | CategoryRe r => test_opt r (TaskDoc.category d)
  | TitleRe r => r (TaskDoc.title d)
  | DescriptionRe r => test_opt r (TaskDoc.description d)
  | TagsInRe rs => existsb (fun r => existsb r (TaskDoc.tags d)) rs
  | DueLt x =>
      match TaskDoc.dueDate d with
      | Some due => due <? x
      | None => false
      end
  | DueGteLt lo hi =>
      match TaskDoc.dueDate d with
      | Some due => (lo <=? due) && (due <? hi)
      | None => false
      end
  | Or cs => existsb (fun c' => holds c' d) cs
  end.

Definition matches (q : Filter) (d : TaskDoc.t) : bool :=
  forallb (fun c => holds c d) q.

(** [Task.find(q)]: the matching documents, in the order of the collection. *)
Definition find (q : Filter) (coll : list TaskDoc.t) : list TaskDoc.t :=
  filter (matches q) coll.

(** [Task.findOne(q)]. *)
Definition findOne (q : Filter) (coll : list TaskDoc.t) : option TaskDoc.t :=
  List.find (matches q) coll.

(** [Task.countDocuments(q)]. *)
Definition countDocuments (q : Filter) (coll : list TaskDoc.t) : nat :=
  List.length (filter (matches q) coll).

(** *** Cursor modifiers *)

Section Sort.
(** [order k a b]: how the store orders two documents by their values at
    path [k]. The ordering belongs to the store and is left open. *)
Variable order : string -> TaskDoc.t -> TaskDoc.t -> comparison.

(** [a] may stay before [b] under [{ [k]: dir }]. *)
Definition in_order (k : string) (dir : Z) (a b : TaskDoc.t) : bool :=
  match (if dir =? 1 then order k a b else order k b a) with
  | Gt => false
  | _ => true
  end.

Fixpoint insert_sorted (k : string) (dir : Z) (x : TaskDoc.t)
    (l : list TaskDoc.t) : list TaskDoc.t :=
  match l with
  | [] => [x]
  | y :: l' =>
      if in_order k dir x y then x :: y :: l'
      else y :: insert_sorted k dir x l'
  end.

(** [.sort({ [k]: dir })]: documents that compare equal keep the order of
    the collection. *)
Fixpoint sort (k : string) (dir : Z) (l : list TaskDoc.t) : list TaskDoc.t :=
  match l with
  | [] => []
  | x :: l' => insert_sorted k dir x (sort k dir l')
  end.
End Sort.

(** [.skip(n)]: the server refuses a negative count. *)
Definition skip (n : Z) (l : list TaskDoc.t) : Js.Result (list TaskDoc.t) :=
  if n <? 0 then Js.Throw Js.MongoError else Js.Ok (skipn (Z.to_nat n) l).

(** [.limit(n)]: zero means no limit, and a negative count limits like
    its absolute value. *)
Definition limit (n : Z) (l : list TaskDoc.t) : list TaskDoc.t :=
  if n =? 0 then l else firstn (Z.to_nat (Z.abs n)) l.

(** *** Population of the [user] path *)

Record UserRef : Type := mkRef {
  ref_id : Id;
  ref_name : string;
  ref_email : string
}.

(** A task whose [user] path has been replaced by the user it refers to,
    or by [null] when the collection has no such user. *)
Record Populated : Type := mkPopulated {
  doc : TaskDoc.t;
  owner : option UserRef
}.

(** [.populate('user', 'name email')] *)
Definition populate (us : list UserDoc.t) (d : TaskDoc.t) : Populated :=
  mkPopulated d
    (option_map
       (fun u => mkRef (UserDoc._id u) (UserDoc.name u) (UserDoc.email u))
       (List.find (fun u => N.eqb (UserDoc._id u) (TaskDoc.user d)) us)).

(** *** Updates *)

(** A path of the Task schema together with a value of its type, or a
    path that is not in the schema. *)
Inductive Assignment : Type :=
| Title (s : string)
| Description (s : string)
| Status (s : string)
| Priority (s : string)
| Category (s : string)
| DueDate (d : Z)
| CompletedAt (d : Z)
| Tags (l : list string)
| User (i : Id)
| IsArchived (b : bool)
| Unknown (path : string).

Definition path (a : Assignment) : string :=
  match a with
  | Title _ => "title"
  | Description _ => "description"
  | Status _ => "status"
  | Priority _ => "priority"
  | Category _ => "category"
  | DueDate _ => "dueDate"
  | CompletedAt _ => "completedAt"
  | Tags _ => "tags"
  | User _ => "user"
  | IsArchived _ => "isArchived"
  | Unknown p => p
  end.

(** An update document: its keys that are paths, in order, and the
    argument of its [$set] operator when it has this key. Other update
    operators are not part of the embedding. *)
Record UpdateDoc : Type := mkUpdate {
  fields : list Assignment;
  set_operator : option (list Assignment)
}.

(** [Object.keys(u).length] *)
Definition keys_length (u : UpdateDoc) : nat :=
  (List.length (fields u) + match set_operator u with Some _ => 1 | None => 0 end)%nat.

(** [delete u[k]] for a key [k] that is a path. *)
Definition delete_key (k : string) (u : UpdateDoc) : UpdateDoc :=
  mkUpdate (filter (fun a => negb (String.eqb (path a) k)) (fields u))
           (set_operator u).

(** What Mongoose sends for [u]: the keys that are paths are shorthand
    for [$set] and are merged into the argument of [$set]. *)
Definition cast_update (u : UpdateDoc) : list Assignment :=
  match set_operator u with
  | Some s => s ++ fields u
  | None => fields u
  end.

(** Strict mode drops a path that is not in the schema. *)
Definition assign (a : Assignment) (d : TaskDoc.t) : TaskDoc.t :=
  match a with
  | Title s => TaskDoc.set_title s d
  | Description s => TaskDoc.set_description (Some s) d
  | Status s => TaskDoc.set_status s d
  | Priority s => TaskDoc.set_priority s d
  | Category s => TaskDoc.set_category (Some s) d
  | DueDate x => TaskDoc.set_dueDate (Some x) d
  | CompletedAt x => TaskDoc.set_completedAt (Some x) d
  | Tags l => TaskDoc.set_tags l d
  | User i => TaskDoc.set_user i d
  | IsArchived b => TaskDoc.set_isArchived b d
  | Unknown _ => d
  end.

Definition apply_update (u : UpdateDoc) (d : TaskDoc.t) : TaskDoc.t :=
  fold_left (fun d' a => assign a d') (cast_update u) d.

(** Apply [f] to the first element that satisfies [p]. *)
Fixpoint update_first {A : Type} (p : A -> bool) (f : A -> A) (l : list A)
    : list A :=
  match l with
  | [] => []
  | x :: l' => if p x then f x :: l' else x :: update_first p f l'
  end.

(** Remove the first element that satisfies [p]. *)
Fixpoint remove_first {A : Type} (p : A -> bool) (l : list A) : list A :=
  match l with
  | [] => []
  | x :: l' => if p x then l' else x :: remove_first p l'
  end.

Definition has_id (i : Id) (d : TaskDoc.t) : bool := N.eqb (TaskDoc._id d) i.

(** The write of [d.save()] when [isArchived] is the modified path. *)
Definition write_isArchived (d : TaskDoc.t) (coll : list TaskDoc.t)
    : list TaskDoc.t :=
  update_first (has_id (TaskDoc._id d))
               (TaskDoc.set_isArchived (TaskDoc.isArchived d)) coll.

Section Validators.
(** The validators of the Task schema, which run on every assignment of
    an update made with [runValidators] and on every path of a document
    that is saved. They are those of [backend/models/Task.js] and are
    left open here. *)
Variable valid : Assignment -> bool.

(** [Task.findByIdAndUpdate(i, u, { new: true, runValidators: true })]:
    the updated document, or [null] when no document has this id. *)
Definition findByIdAndUpdate (i : Id) (u : UpdateDoc) (coll : list TaskDoc.t)
    : Js.Result (option TaskDoc.t * list TaskDoc.t) :=
  if forallb valid (cast_update u) then
    Js.Ok (option_map (apply_update u) (List.find (has_id i) coll),
           update_first (has_id i) (apply_update u) coll)
  else Js.Throw Js.ValidationError.

(** The paths a document holds, as the assignments that would set them. *)
Definition stored_paths (d : TaskDoc.t) : list Assignment :=
  ([Title (TaskDoc.title d)]
     ++ match TaskDoc.description d with Some x => [Description x] | None => [] end
     ++ [Status (TaskDoc.status d); Priority (TaskDoc.priority d)]
     ++ match TaskDoc.category d with Some x => [Category x] | None => [] end
     ++ match TaskDoc.dueDate d with Some x => [DueDate x] | None => [] end
     ++ match TaskDoc.completedAt d with Some x => [CompletedAt x] | None => [] end
     ++ [Tags (TaskDoc.tags d); User (TaskDoc.user d);
         IsArchived (TaskDoc.isArchived d)])%list.

(** [d.validate()], which [save] runs first. *)
Definition validate (d : TaskDoc.t) : bool := forallb valid (stored_paths d).

(** [d.save()] after an assignment to [d.isArchived]: the document is
    validated, then the modified path is written to the stored document
    with the id of [d]. *)
Definition save_isArchived (d : TaskDoc.t) (coll : list TaskDoc.t)
    : Js.Result (list TaskDoc.t) :=
  if validate d then Js.Ok (write_isArchived d coll)
  else Js.Throw Js.ValidationError.

(** The body of a creation assigns [title], a path the schema requires
    ([title: String (required)] in [backend/README.md]). *)
Definition has_title (body : list Assignment) : bool :=
  existsb (fun a => match a with Title _ => true | _ => false end) body.

(** [Task.create(body)]. [fresh] is the document the model starts from:
    a generated id, the defaults of the schema and the creation time.
    The keys of [body] are assigned in order; the document is validated;
    the server refuses an id the collection already holds, and otherwise
    inserts the document at the end. *)
Definition create (fresh : TaskDoc.t) (body : list Assignment)
    (coll : list TaskDoc.t) : Js.Result (TaskDoc.t * list TaskDoc.t) :=
  let d := fold_left (fun d' a => assign a d') body fresh in
  if has_title body && validate d then
    if existsb (has_id (TaskDoc._id d)) coll then Js.Throw Js.MongoError
    else Js.Ok (d, (coll ++ [d])%list)
  else Js.Throw Js.ValidationError.
End Validators.

(** [Task.findByIdAndDelete(i)] *)
Definition findByIdAndDelete (i : Id) (coll : list TaskDoc.t) : list TaskDoc.t :=
  remove_first (has_id i) coll.


Record UpdateResult : Type := mkResult {
  matchedCount : nat;
  modifiedCount : nat
}.

Definition changes (u : UpdateDoc) (d : TaskDoc.t) : bool :=
  negb (TaskDoc.eqb (apply_update u d) d).

(** [Task.updateMany(q, u)]: every matching document is updated;
    [modifiedCount] counts those the update has changed. *)
Definition updateMany (q : Filter) (u : UpdateDoc) (coll : list TaskDoc.t)
    : UpdateResult * list TaskDoc.t :=
  (mkResult (List.length (filter (matches q) coll))
            (List.length (filter (changes u) (filter (matches q) coll))),
   map (fun d => if matches q d then apply_update u d else d) coll).


End Mongo.

(** ** Responses *)

Record Pagination : Type := mkPagination {
  current : Z;
  total : option Z;
  count : nat;
  totalRecords : nat
}.

(** The [data] member of a response body. *)
Inductive Data : Type :=
| NoData                               (* the body has no [data] member *)
| NullData                             (* [data: null] *)
| OneTask (t : Mongo.Populated)
| OneDoc (d : TaskDoc.t)
| TaskList (l : list Mongo.Populated)
| Stats (o : Js.Obj Js.Json)
| Counts (matched modified : nat).

Record Body : Type := mkBody {
  success : bool;
  message : option string;
  data : Data;
  pagination : option Pagination
}.

(** How a handler ends: [res.status(code).json(body)], or [next(error)]. *)
Inductive Outcome : Type :=
| Respond (code : nat) (body : Body)
| Next (e : Js.Exn).

(** ** backend/routes/tasks.js *)

Module TasksRoutes.

(** A value of the query string that the handler compares as it is. *)
Inductive QValue : Type :=
| QString (s : string)
| QBoolean (b : bool)
| QArray (l : list string).

(** [req.query] of [GET /api/tasks]: a parameter is absent or holds one
    value. [page] and [limit] are the integers their values denote, for
    which [(page - 1) * limit], [parseInt(limit)] and [total / limit]
    all read the same number. *)
Record Query : Type := mkQuery {
  status : option string;
  priority : option string;
  category : option string;
  search : option string;
  sortBy : option string;
  sortOrder : option string;
  page : option Z;
  limit : option Z;
  includeArchived : option QValue
}.

(** [includeArchived === 'true'] *)
Definition is_string_true (v : QValue) : bool :=
  match v with
  | QString s => String.eqb s "true"
  | _ => false
  end.

Definition notFound : Outcome :=
  Respond 404 (mkBody false (Some "Task not found") NoData None).

(** The filter of every single-task handler:
    [{ _id: req.params.id, user: req.user.id }]. *)
Definition ownFilter (id caller : Id) : Mongo.Filter :=
  [Mongo.IdIs id; Mongo.UserIs caller].

Section Environment.
Variable host : string -> Js.Result RegExp.Regex.
Variable order : string -> TaskDoc.t -> TaskDoc.t -> comparison.
Variable valid : Mongo.Assignment -> bool.

(** *** GET /api/tasks *)

Definition archivedCond (q : Query) : Mongo.Cond :=
  if is_string_true (Js.default (QString "false") (includeArchived q))
  then Mongo.ArchivedIn [true; false]
  else Mongo.ArchivedIs false.

Definition statusFilter (q : Query) : Mongo.Filter :=
  match Js.truthy (status q) with
  | Some s => [Mongo.StatusIs s]
  | None => []
  end.

Definition priorityFilter (q : Query) : Mongo.Filter :=
  match Js.truthy (priority q) with
  | Some s => [Mongo.PriorityIs s]
  | None => []
  end.

Definition categoryFilter (q : Query) : Js.Result Mongo.Filter :=
  match Js.truthy (category q) with
  | Some c =>
      r <- RegExp.new_RegExp_i host c ;;
      Js.Ok [Mongo.CategoryRe r]
  | None => Js.Ok []
  end.

Definition searchFilter (q : Query) : Js.Result Mongo.Filter :=
  match Js.truthy (search q) with
  | Some s =>
      r1 <- RegExp.new_RegExp_i host s ;;
      r2 <- RegExp.new_RegExp_i host s ;;
      r3 <- RegExp.new_RegExp_i host s ;;
      Js.Ok [Mongo.Or [Mongo.TitleRe r1; Mongo.DescriptionRe r2;
                       Mongo.TagsInRe [r3]]]
  | None => Js.Ok []
  end.

(** The query object, key by key in the order the handler sets them. *)
Definition buildQuery (caller : Id) (q : Query) : Js.Result Mongo.Filter :=
  c <- categoryFilter q ;;
  s <- searchFilter q ;;
  Js.Ok ([Mongo.UserIs caller; archivedCond q]
           ++ statusFilter q ++ priorityFilter q ++ c ++ s)%list.

Definition sortKey (q : Query) : string := Js.default "createdAt" (sortBy q).

Definition sortDir (q : Query) : Z :=
  if String.eqb (Js.default "desc" (sortOrder q)) "asc" then 1 else -1.

Definition pageOf (q : Query) : Z := Js.default 1 (page q).
Definition limitOf (q : Query) : Z := Js.default 10 (limit q).

(** [(page - 1) * limit] *)
Definition skipOf (q : Query) : Z := (pageOf q - 1) * limitOf q.

Definition listTasks (caller : Id) (q : Query) (db : Db) : Outcome :=
  match
    query <- buildQuery caller q ;;
    skipped <- Mongo.skip (skipOf q)
                 (Mongo.sort order (sortKey q) (sortDir q)
                    (Mongo.find query (tasks db))) ;;
    Js.Ok (map (Mongo.populate (users db)) (Mongo.limit (limitOf q) skipped),
           Mongo.countDocuments query (tasks db))
  with
  | Js.Ok (found, n) =>
      Respond 200
        (mkBody true None (TaskList found)
           (Some (mkPagination (pageOf q)
                    (Js.ceil_div (Z.of_nat n) (limitOf q))
                    (List.length found) n)))
  | Js.Throw e => Next e
  end.

(** *** GET /api/tasks/:id *)

Definition getTask (caller id : Id) (db : Db) : Outcome :=
  match Mongo.findOne (ownFilter id caller) (tasks db) with
  | None => notFound
  | Some d =>
      Respond 200
        (mkBody true None (OneTask (Mongo.populate (users db) d)) None)
  end.

(** *** PUT /api/tasks/:id

    [body] is [req.body] once the validation middleware has let the
    request through. *)

Definition updateTask (caller id : Id) (body : Mongo.UpdateDoc) (db : Db)
    : Outcome * Db :=
  match Mongo.findOne (ownFilter id caller) (tasks db) with
  | None => (notFound, db)
  | Some _ =>
      let body' := Mongo.delete_key "user" body in
      match Mongo.findByIdAndUpdate valid id body' (tasks db) with
      | Js.Ok (Some d, coll) =>
          (Respond 200
             (mkBody true (Some "Task updated successfully")
                (OneTask (Mongo.populate (users db) d)) None),
           mkDb (users db) coll)
      | Js.Ok (None, coll) =>
          (Respond 200
             (mkBody true (Some "Task updated successfully") NullData None),
           mkDb (users db) coll)
      | Js.Throw e => (Next e, db)
      end
  end.

(** *** DELETE /api/tasks/:id *)

Definition deleteTask (caller id : Id) (db : Db) : Outcome * Db :=
  match Mongo.findOne (ownFilter id caller) (tasks db) with
  | None => (notFound, db)
  | Some _ =>
      (Respond 200
         (mkBody true (Some "Task deleted successfully") NoData None),
       mkDb (users db) (Mongo.findByIdAndDelete id (tasks db)))
  end.

(** *** PATCH /api/tasks/:id/archive *)

Definition archiveTask (caller id : Id) (db : Db) : Outcome * Db :=
  match Mongo.findOne (ownFilter id caller) (tasks db) with
  | None => (notFound, db)
  | Some d =>
      let d' := TaskDoc.set_isArchived (negb (TaskDoc.isArchived d)) d in
      match Mongo.save_isArchived valid d' (tasks db) with
      | Js.Ok coll =>
          (Respond 200
             (mkBody true
                (Some (if TaskDoc.isArchived d'
                       then "Task archived successfully"
                       else "Task unarchived successfully"))
                (OneDoc d') None),
           mkDb (users db) coll)
      | Js.Throw e => (Next e, db)
      end
  end.

End Environment.

(** *** GET /api/tasks/stats/overview *)

Definition openStatus : Mongo.Cond := Mongo.StatusNin ["completed"; "cancelled"].

Definition overdueFilter (caller : Id) (now : Z) : Mongo.Filter :=
  [Mongo.UserIs caller; Mongo.DueLt now; openStatus; Mongo.ArchivedIs false].

Definition dueTodayFilter (caller : Id) (todayStart todayEnd : Z)
    : Mongo.Filter :=
  [Mongo.UserIs caller; Mongo.DueGteLt todayStart todayEnd; openStatus;
   Mongo.ArchivedIs false].

Section Clock.
(** [Task.getTaskStats], a static of [backend/models/Task.js], left
    open here. *)
Variable getTaskStats : Id -> list TaskDoc.t -> Js.Obj Js.Json.
(** The calendar of the runtime, in its local time zone: the fields of an
    instant, and [new Date(year, month, day)]. *)
Variables getFullYear getMonth getDate : Z -> Z.
Variable newDate : Z -> Z -> Z -> Z.

Definition todayStartOf (today : Z) : Z :=
  newDate (getFullYear today) (getMonth today) (getDate today).

Definition todayEndOf (today : Z) : Z :=
  newDate (getFullYear today) (getMonth today) (getDate today + 1).

(** [now] and [today] are the two readings of the clock the handler
    makes, in this order. *)
Definition statsOverview (caller : Id) (now today : Z) (db : Db) : Outcome :=
  let stats := getTaskStats caller (tasks db) in
  let overdueCount :=
    Mongo.countDocuments (overdueFilter caller now) (tasks db) in
  let todayStart := todayStartOf today in
  let todayEnd := todayEndOf today in
  let dueTodayCount :=
    Mongo.countDocuments (dueTodayFilter caller todayStart todayEnd)
      (tasks db) in
  Respond 200
    (mkBody true None
       (Stats (Js.obj_set "dueToday" (Js.JNum (Z.of_nat dueTodayCount))
                 (Js.obj_set "overdue" (Js.JNum (Z.of_nat overdueCount))
                    stats)))
       None).
End Clock.

(** *** PATCH /api/tasks/bulk *)

(** [req.body.taskIds] *)
Inductive TaskIds : Type :=
| IdsMissing                 (* undefined, null or another falsy value *)
| IdsNotArray                (* a truthy value that is not an array *)
| IdsArray (l : list Id).

(** [req.body]; [updates] is [None] when it is missing or falsy, and an
    object otherwise. *)
Record BulkBody : Type := mkBulk {
  taskIds : TaskIds;
  updates : option Mongo.UpdateDoc
}.

Definition badRequest (msg : string) : Outcome :=
  Respond 400 (mkBody false (Some msg) NoData None).

Definition bulkFilter (ids : list Id) (caller : Id) : Mongo.Filter :=
  [Mongo.IdIn ids; Mongo.UserIs caller].

Definition decimal (n : nat) : string :=
  NilEmpty.string_of_uint (Nat.to_uint n).

Definition bulkUpdate (caller : Id) (body : BulkBody) (db : Db)
    : Outcome * Db :=
  match taskIds body with
  | IdsMissing | IdsNotArray | IdsArray [] =>
      (badRequest "Task IDs are required", db)
  | IdsArray ids =>
      match updates body with
      | None => (badRequest "Updates are required", db)
      | Some u =>
          if Nat.eqb (Mongo.keys_length u) 0
          then (badRequest "Updates are required", db)
          else
            let u' := Mongo.delete_key "user" u in
            let (result, coll) :=
              Mongo.updateMany (bulkFilter ids caller) u' (tasks db) in
            (Respond 200
               (mkBody true
                  (Some (decimal (Mongo.modifiedCount result)
                           ++ " tasks updated successfully"))
                  (Counts (Mongo.matchedCount result)
                          (Mongo.modifiedCount result))
                  None),
             mkDb (users db) coll)
      end
  end.

(** *** POST /api/tasks

    [body] is [req.body] once the validation middleware has let the
    request through: its keys that are paths of the schema, in order. *)

(** [body.user = caller]: the key keeps its place when the body has it,
    and is added at the end otherwise. *)
Definition stampOwner (caller : Id) (body : list Mongo.Assignment)
    : list Mongo.Assignment :=
  if existsb (fun a => String.eqb (Mongo.path a) "user") body
  then map (fun a => if String.eqb (Mongo.path a) "user"
                     then Mongo.User caller else a) body
  else (body ++ [Mongo.User caller])%list.

Definition createTask (valid : Mongo.Assignment -> bool) (fresh : TaskDoc.t)
    (caller : Id) (body : list Mongo.Assignment) (db : Db) : Outcome * Db :=
  match Mongo.create valid fresh (stampOwner caller body) (tasks db) with
  | Js.Ok (d, coll) =>
      (Respond 201
         (mkBody true (Some "Task created successfully")
            (OneTask (Mongo.populate (users db) d)) None),
       mkDb (users db) coll)
  | Js.Throw e => (Next e, db)
  end.

End TasksRoutes.

(** ** backend/routes/users.js *)

Module UsersRoutes.

(** *** DELETE /api/users/account *)


(** *** The answers of the profile handlers *)

(** A user document as [findById] and [findByIdAndUpdate] return it:
    without [password], which the schema does not select (the handler of
    change-password asks for it with [select('+password')]). *)
Record Profile : Type := mkProfile {
  p_id : Id;
  p_name : string;
  p_email : string;
  p_avatar : option string;
  p_role : string;
  p_isActive : bool;
  p_lastLogin : option Z;
  p_createdAt : Z
}.

Definition profileOf (u : UserDoc.t) : Profile :=
  mkProfile (UserDoc._id u) (UserDoc.name u) (UserDoc.email u)
            (UserDoc.avatar u) (UserDoc.role u) (UserDoc.isActive u)
            (UserDoc.lastLogin u) (UserDoc.createdAt u).

Inductive UserData : Type :=
| NoUserData                     (* the body has no [data] member *)
| UserData_ (u : option Profile). (* [data: user], [null] when there is none *)

Inductive Reply : Type :=
| Answer (code : nat) (success : bool) (message : option string)
         (data : UserData)
| Raise (e : Js.Exn)             (* [next(error)] *)
| RaiseTypeError.                (* [next(error)] for a method called on [null] *)

Definition has_user_id (i : Id) (u : UserDoc.t) : bool := N.eqb (UserDoc._id u) i.

(** [User.findById(i)] *)
Definition findById (i : Id) (coll : list UserDoc.t) : option UserDoc.t :=
  List.find (has_user_id i) coll.

(** *** PUT /api/users/profile

    [body] is [req.body] once the validation middleware has let the
    request through: an object whose values are strings. *)

Definition allowedFields : list string := ["name"; "email"; "avatar"].

(** [Object.keys(req.body).forEach(key => ...)]: the allowed keys of the
    body, copied into a new object. *)
Definition pickAllowed (body : Js.Obj string) : Js.Obj string :=
  fold_left (fun updates kv =>
               if existsb (String.eqb (fst kv)) allowedFields
               then Js.obj_set (fst kv) (snd kv) updates
               else updates)
            body [].

Section Profile.
(** What the schema stores for a value at a path (its setters). *)
Variable stored : string -> string -> string.
(** [User.findOne({ email })] finds a user; how the store compares
    e-mail addresses is left open. *)
Variable emailTaken : string -> list UserDoc.t -> bool.
(** The exception, if any, with which the store refuses an update of a
    user: the validators of the schema, which run with [runValidators],
    and the unique index on [email]. *)
Variable refused : Id -> Js.Obj string -> list UserDoc.t -> option Js.Exn.

(** The assignment of one key of the update. *)
Definition assignProfile (kv : string * string) (u : UserDoc.t) : UserDoc.t :=
  let v := stored (fst kv) (snd kv) in
  if String.eqb (fst kv) "name" then
    UserDoc.mk (UserDoc._id u) v (UserDoc.email u) (UserDoc.password u)
      (UserDoc.avatar u) (UserDoc.role u) (UserDoc.isActive u)
      (UserDoc.lastLogin u) (UserDoc.createdAt u)
  else if String.eqb (fst kv) "email" then
    UserDoc.mk (UserDoc._id u) (UserDoc.name u) v (UserDoc.password u)
      (UserDoc.avatar u) (UserDoc.role u) (UserDoc.isActive u)
      (UserDoc.lastLogin u) (UserDoc.createdAt u)
  else if String.eqb (fst kv) "avatar" then
    UserDoc.mk (UserDoc._id u) (UserDoc.name u) (UserDoc.email u)
      (UserDoc.password u) (Some v) (UserDoc.role u) (UserDoc.isActive u)
      (UserDoc.lastLogin u) (UserDoc.createdAt u)
  else u.

Definition applyProfile (updates : Js.Obj string) (u : UserDoc.t) : UserDoc.t :=
  fold_left (fun u' kv => assignProfile kv u') updates u.

(** [updates.email && updates.email !== req.user.email], followed by the
    lookup of the address. *)
Definition emailConflict (callerEmail : string) (updates : Js.Obj string)
    (coll : list UserDoc.t) : bool :=
  match Js.truthy (Js.obj_get "email" updates) with
  | Some e => negb (String.eqb e callerEmail) && emailTaken e coll
  | None => false
  end.

(** [caller] and [callerEmail] are [req.user.id] and [req.user.email]. *)
Definition updateProfile (caller : Id) (callerEmail : string)
    (body : Js.Obj string) (db : Db) : Reply * Db :=
  let updates := pickAllowed body in
  if emailConflict callerEmail updates (users db)
  then (Answer 400 false (Some "Email already exists") NoUserData, db)
  else
    match refused caller updates (users db) with
    | Some e => (Raise e, db)
    | None =>
        let coll :=
          Mongo.update_first (has_user_id caller) (applyProfile updates)
                             (users db) in
        (Answer 200 true (Some "Profile updated successfully")
                (UserData_ (option_map profileOf (findById caller coll))),
         mkDb coll (tasks db))
    end.
End Profile.

(** *** PUT /api/users/change-password *)

Section Password.
(** [user.matchPassword(candidate)], a method of
    [backend/models/User.js], on the candidate and the stored password. *)
Variable matchPassword : string -> string -> bool.
(** What saving stores for a new password (the model hashes it). *)
Variable hashed : string -> string.
(** The validation that comes with saving, on the document with the new
    password assigned. *)
Variable validOnSave : UserDoc.t -> bool.

Definition set_password (x : string) (u : UserDoc.t) : UserDoc.t :=
  UserDoc.mk (UserDoc._id u) (UserDoc.name u) (UserDoc.email u) x
    (UserDoc.avatar u) (UserDoc.role u) (UserDoc.isActive u)
    (UserDoc.lastLogin u) (UserDoc.createdAt u).

Definition changePassword (caller : Id) (currentPassword newPassword : string)
    (db : Db) : Reply * Db :=
  match findById caller (users db) with
  | None => (RaiseTypeError, db)
  | Some user =>
      if matchPassword currentPassword (UserDoc.password user) then
        if validOnSave (set_password newPassword user) then
          (Answer 200 true (Some "Password changed successfully") NoUserData,
           mkDb (Mongo.update_first (has_user_id caller)
                   (set_password (hashed newPassword)) (users db))
                (tasks db))
        else (Raise Js.ValidationError, db)
      else
        (Answer 400 false (Some "Current password is incorrect") NoUserData, db)
  end.
End Password.

End UsersRoutes.

(** ** The wording of the specification *)

Module Spec.

(** [s] occurs, letter case ignored, in the title, in the description or
    in one of the tags of [d]. *)
Definition mentions (s : string) (d : TaskDoc.t) : Prop :=
  RegExp.ci_substring s (TaskDoc.title d)
  \/ (exists x, TaskDoc.description d = Some x /\ RegExp.ci_substring s x)
  \/ (exists g, In g (TaskDoc.tags d) /\ RegExp.ci_substring s g).

(** The status is neither completed nor cancelled. *)
Definition is_open (d : TaskDoc.t) : bool :=
  negb (String.eqb (TaskDoc.status d) "completed")
  && negb (String.eqb (TaskDoc.status d) "cancelled").

(** A task of [caller] that is not archived, is open, and is due strictly
    before [now]. *)
Definition overdue (caller : Id) (now : Z) (d : TaskDoc.t) : bool :=
  N.eqb (TaskDoc.user d) caller
  && negb (TaskDoc.isArchived d)
  && is_open d
  && match TaskDoc.dueDate d with
     | Some due => due <? now
     | None => false
     end.

(** A task of [caller] that is not archived, is open, and is due within
    [[dayStart, nextDayStart)]. *)
Definition due_within (caller : Id) (dayStart nextDayStart : Z)
    (d : TaskDoc.t) : bool :=
  N.eqb (TaskDoc.user d) caller
  && negb (TaskDoc.isArchived d)
  && is_open d
  && match TaskDoc.dueDate d with
     | Some due => (dayStart <=? due) && (due <? nextDayStart)
     | None => false
     end.




(** The collection assigns every id to at most one task. *)
Definition unique_ids (coll : list TaskDoc.t) : Prop :=
  NoDup (map TaskDoc._id coll).


End Spec.

(** ** A small database for the examples *)

Module Sample.

(** An engine that rejects every pattern outside the modelled fragment. *)
Definition host (p : string) : Js.Result RegExp.Regex := Js.Throw Js.SyntaxError.

(** Documents ordered by creation time, whatever the sort key. *)
Definition order (k : string) (a b : TaskDoc.t) : comparison :=
  Z.compare (TaskDoc.createdAt a) (TaskDoc.createdAt b).

(** Modelled from the spec: the validators of the Task schema of
    [backend/models/Task.js], which is missing: the title is not empty,
    and status and priority belong to their enumerations. *)
Definition valid (a : Mongo.Assignment) : bool :=
  match a with
  | Mongo.Title s => negb (String.eqb s "")
  | Mongo.Status s =>
      existsb (String.eqb s) ["pending"; "in-progress"; "completed"; "cancelled"]
  | Mongo.Priority s => existsb (String.eqb s) ["low"; "medium"; "high"; "urgent"]
  | _ => true
  end.

Definition ann : Id := 1%N.
Definition bob : Id := 2%N.

Definition annUser : UserDoc.t :=
  UserDoc.mk ann "Ann" "ann@x.com" "$2a$12$hash" None "user" true None 1000.

Definition bobUser : UserDoc.t :=
  UserDoc.mk bob "Bob" "bob@x.com" "$2a$12$hash" None "user" true None 2000.

Definition writeSpec : TaskDoc.t :=
  TaskDoc.mk 11%N "Write spec" None "pending" "medium" None (Some 5000) None
             [] ann false 3000.

Definition review : TaskDoc.t :=
  TaskDoc.mk 12%N "Review" (Some "second pass") "completed" "high"
             (Some "Work") (Some 4000) None ["docs"] ann true 3100.

Definition shopping : TaskDoc.t :=
  TaskDoc.mk 13%N "x" None "pending" "low" None None None [] ann false 3200.

Definition bobTask : TaskDoc.t :=
  TaskDoc.mk 21%N "Taxes" None "pending" "urgent" None (Some 4500) None
             ["money"] bob false 3300.

Definition db : Db :=
  mkDb [annUser; bobUser] [writeSpec; review; shopping; bobTask].

Definition noQuery : TasksRoutes.Query :=
  TasksRoutes.mkQuery None None None None None None None None None.

Definition searchFor (s : string) : TasksRoutes.Query :=
  TasksRoutes.mkQuery None None None (Some s) None None None None None.

Definition pageQuery (p l : Z) : TasksRoutes.Query :=
  TasksRoutes.mkQuery None None None None None None (Some p) (Some l) None.

Definition withArchived (v : TasksRoutes.QValue) : TasksRoutes.Query :=
  TasksRoutes.mkQuery None None None None None None None None (Some v).

(** The ids of the tasks a response lists, in order. *)
Definition listed (o : Outcome) : list Id :=
  match o with
  | Respond _ b =>
      match data b with
      | TaskList l => map (fun p => TaskDoc._id (Mongo.doc p)) l
      | _ => []
      end
  | Next _ => []
  end.

(** A bulk payload whose only key is the operator [$set], which assigns
    the path [user]. *)
Definition reassign (to : Id) : Mongo.UpdateDoc :=
  Mongo.mkUpdate [] (Some [Mongo.User to]).

End Sample.

(** ** frontend/lib/api-client.ts

    The token of the [ApiClient] singleton and its copy in the storage of
    the browser. The state is threaded through the methods; what the
    server answers to a request is an input. *)

Module ApiClient.

(** [window]: the local storage and the location. *)
Record Window : Type := mkWindow {
  localStorage : Js.Obj string;
  href : string
}.

(** The private field [token], and the browser when there is one
    ([typeof window !== 'undefined']). *)
Record State : Type := mkState {
  token : option string;
  window : option Window
}.

(** [localStorage.removeItem(k)] *)
Fixpoint removeItem (k : string) (o : Js.Obj string) : Js.Obj string :=
  match o with
  | [] => []
  | (k', v) :: o' =>
      if String.eqb k k' then removeItem k o' else (k', v) :: removeItem k o'
  end.

(** The end of the constructor: the token is loaded from the storage. *)
Definition construct (w : option Window) : State :=
  match w with
  | Some b =>
      mkState (Js.truthy (Js.obj_get "auth_token" (localStorage b))) (Some b)
  | None => mkState None None
  end.

Definition setToken (t : string) (st : State) : State :=
  mkState (Some t)
    (option_map
       (fun b => mkWindow (Js.obj_set "auth_token" t (localStorage b)) (href b))
       (window st)).

Definition clearToken (st : State) : State :=
  mkState None
    (option_map
       (fun b => mkWindow (removeItem "auth_token" (localStorage b)) (href b))
       (window st)).

Definition getToken (st : State) : option string := token st.

(** The request interceptor: the [Authorization] header of a request. *)
Definition authorization (st : State) : option string :=
  match Js.truthy (token st) with
  | Some t => Some ("Bearer " ++ t)
  | None => None
  end.

(** How a request ends: with the data of a response, or with an error
    that carries the status of the response when there is one. *)
Inductive Http (A : Type) : Type :=
| Fulfilled (data : A)
| Rejected (status : option nat).
Arguments Fulfilled {A} data.
Arguments Rejected {A} status.

(** The response interceptor on an error. *)
Definition is401 (status : option nat) : bool :=
  match status with
  | Some n => Nat.eqb n 401
  | None => false
  end.

Definition onError (status : option nat) (st : State) : State :=
  if is401 status then
    let st' := clearToken st in
    mkState (token st')
      (option_map (fun b => mkWindow (localStorage b) "/login") (window st'))
  else st.

(** [AuthResponse], as far as the client reads it. *)
Record AuthResponse : Type := mkAuth {
  auth_success : bool;
  auth_token : option string
}.

(** [login] and [signup], given how the request ends. *)
Definition login (r : Http AuthResponse) (st : State) : State :=
  match r with
  | Fulfilled d =>
      match Js.truthy (auth_token d) with
      | Some t => if auth_success d then setToken t st else st
      | None => st
      end
  | Rejected status => onError status st
  end.

Definition signup (r : Http AuthResponse) (st : State) : State := login r st.

(** [logout]: the token is cleared when the request succeeds and when it
    fails. *)
Definition logout {A : Type} (r : Http A) (st : State) : State :=
  match r with
  | Fulfilled _ => clearToken st
  | Rejected status => clearToken (onError status st)
  end.

(** Every other method: one request, whose answer is returned. *)
Definition request {A : Type} (r : Http A) (st : State) : State :=
  match r with
  | Fulfilled _ => st
  | Rejected status => onError status st
  end.

(** A call of a method of the client. *)
Inductive Call : Type :=
| CallSetToken (t : string)
| CallClearToken
| CallLogin (r : Http AuthResponse)
| CallSignup (r : Http AuthResponse)
| CallLogout (r : Http unit)
| CallOther (r : Http unit).

Definition step (st : State) (c : Call) : State :=
  match c with
  | CallSetToken t => setToken t st
  | CallClearToken => clearToken st
  | CallLogin r => login r st
  | CallSignup r => signup r st
  | CallLogout r => logout r st
  | CallOther r => request r st
  end.

(** The client after a sequence of calls, from its construction. *)
Definition run (w : option Window) (calls : list Call) : State :=
  fold_left step calls (construct w).

(** The token in memory and the token in the storage are the same, an
    empty token counting as none. *)
Definition in_sync (st : State) : Prop :=
  forall b, window st = Some b ->
            Js.truthy (token st)
            = Js.truthy (Js.obj_get "auth_token" (localStorage b)).

End ApiClient.

(** ** What a handler leaves alone in a user record *)

Module Frames.



End Frames.

(** ** More sample data *)

Module Fixtures.

(** A document as the model builds it before the body is assigned. *)
Definition blank : TaskDoc.t :=
  TaskDoc.mk 31%N "" None "pending" "medium" None None None [] 0%N false 4000.

Definition browser : ApiClient.Window :=
  ApiClient.mkWindow [("theme", "dark")] "/dashboard".

Definition stored (k v : string) : string := v.
Definition emailTaken (e : string) (coll : list UserDoc.t) : bool :=
  existsb (fun u => String.eqb (UserDoc.email u) e) coll.
Definition refused (i : Id) (u : Js.Obj string) (coll : list UserDoc.t)
    : option Js.Exn := None.
Definition matchPassword (candidate storedPassword : string) : bool :=
  String.eqb ("$2a$12$" ++ candidate) storedPassword.
Definition hashed (p : string) : string := "$2a$12$" ++ p.
Definition validOnSave (u : UserDoc.t) : bool := true.

End Fixtures.

(** * Properties *)

(** ** The handlers on the sample database *)

Example list_hides_archived_and_foreign_tasks :
  Sample.listed (TasksRoutes.listTasks Sample.host Sample.order Sample.ann
                   Sample.noQuery Sample.db)
  = [13%N; 11%N].
Proof. reflexivity. Qed.

Example list_with_archived_tasks :
  Sample.listed (TasksRoutes.listTasks Sample.host Sample.order Sample.ann
                   (Sample.withArchived (TasksRoutes.QString "true")) Sample.db)
  = [13%N; 12%N; 11%N].
Proof. reflexivity. Qed.

Example list_with_upper_case_TRUE :
  Sample.listed (TasksRoutes.listTasks Sample.host Sample.order Sample.ann
                   (Sample.withArchived (TasksRoutes.QString "TRUE")) Sample.db)
  = [13%N; 11%N].
Proof. reflexivity. Qed.

Example search_ignores_letter_case :
  Sample.listed (TasksRoutes.listTasks Sample.host Sample.order Sample.ann
                   (Sample.searchFor "SPEC") Sample.db)
  = [11%N].
Proof. reflexivity. Qed.

Example search_with_a_dot_matches_every_title :
  Sample.listed (TasksRoutes.listTasks Sample.host Sample.order Sample.ann
                   (Sample.searchFor ".") Sample.db)
  = [13%N; 11%N].
Proof. reflexivity. Qed.

Example second_page_of_size_one :
  TasksRoutes.listTasks Sample.host Sample.order Sample.ann
    (Sample.pageQuery 2 1) Sample.db
  = Respond 200
      (mkBody true None
         (TaskList [Mongo.populate (users Sample.db) Sample.writeSpec])
         (Some (mkPagination 2 (Some 2) 1 2))).
Proof. reflexivity. Qed.

Example negative_skip_is_refused :
  TasksRoutes.listTasks Sample.host Sample.order Sample.ann
    (Sample.pageQuery 0 5) Sample.db
  = Next Js.MongoError.
Proof. reflexivity. Qed.

Example bulk_update_without_ids :
  TasksRoutes.bulkUpdate Sample.ann
    (TasksRoutes.mkBulk (TasksRoutes.IdsArray [])
                        (Some (Mongo.mkUpdate [Mongo.Status "completed"] None)))
    Sample.db
  = (TasksRoutes.badRequest "Task IDs are required", Sample.db).
Proof. reflexivity. Qed.

Example bulk_update_counts_own_tasks_only :
  fst (TasksRoutes.bulkUpdate Sample.ann
         (TasksRoutes.mkBulk (TasksRoutes.IdsArray [11%N; 13%N; 21%N])
                             (Some (Mongo.mkUpdate [Mongo.Status "pending"] None)))
         Sample.db)
  = Respond 200
      (mkBody true (Some "0 tasks updated successfully") (Counts 2 0) None).
Proof. reflexivity. Qed.

Example delete_then_get :
  TasksRoutes.getTask Sample.ann 11%N
    (snd (TasksRoutes.deleteTask Sample.ann 11%N Sample.db))
  = TasksRoutes.notFound.
Proof. reflexivity. Qed.

(** ** The store *)

Section SortFacts.
Variable order : string -> TaskDoc.t -> TaskDoc.t -> comparison.

Lemma insert_sorted_perm k dir x l :
  Permutation (Mongo.insert_sorted order k dir x l) (x :: l).
Proof.
  induction l as [|y l IH]; simpl.
  - apply Permutation_refl.
  - destruct (Mongo.in_order order k dir x y).
    + apply Permutation_refl.
    + eapply perm_trans; [apply perm_skip, IH | apply perm_swap].
Qed.

Lemma sort_perm k dir l : Permutation (Mongo.sort order k dir l) l.
Proof.
  induction l as [|x l IH]; simpl.
  - constructor.
  - eapply perm_trans; [apply insert_sorted_perm | apply perm_skip, IH].
Qed.


Lemma sort_In k dir l d : In d (Mongo.sort order k dir l) -> In d l.
Proof. apply Permutation_in, sort_perm. Qed.
End SortFacts.

Lemma In_firstn {A : Type} n (l : list A) x : In x (firstn n l) -> In x l.
Proof.
  intros H. rewrite <- (firstn_skipn n l). apply in_or_app. now left.
Qed.

Lemma In_skipn {A : Type} n (l : list A) x : In x (skipn n l) -> In x l.
Proof.
  intros H. rewrite <- (firstn_skipn n l). apply in_or_app. now right.
Qed.

Lemma limit_In n l d : In d (Mongo.limit n l) -> In d l.
Proof.
  unfold Mongo.limit. destruct (n =? 0); [easy|]. apply In_firstn.
Qed.

Lemma skip_In n l l' d : Mongo.skip n l = Js.Ok l' -> In d l' -> In d l.
Proof.
  unfold Mongo.skip. destruct (n <? 0); [discriminate|].
  intros [= <-]. apply In_skipn.
Qed.

Lemma find_In q coll d :
  In d (Mongo.find q coll) <-> In d coll /\ Mongo.matches q d = true.
Proof. unfold Mongo.find. apply filter_In. Qed.

Lemma populate_doc us d : Mongo.doc (Mongo.populate us d) = d.
Proof. reflexivity. Qed.

Lemma populate_owner us d r :
  Mongo.owner (Mongo.populate us d) = Some r -> Mongo.ref_id r = TaskDoc.user d.
Proof.
  unfold Mongo.populate; simpl.
  destruct (List.find _ us) as [u|] eqn:E; simpl; [|discriminate].
  intros [= <-]. simpl. apply find_some in E. apply N.eqb_eq, E.
Qed.

(** ** GET /api/tasks *)

Lemma bind_Ok {A B : Type} (m : Js.Result A) (k : A -> Js.Result B) b :
  Js.bind m k = Js.Ok b -> exists a, m = Js.Ok a /\ k a = Js.Ok b.
Proof. destruct m; simpl; [eauto | discriminate]. Qed.

Lemma buildQuery_shape host caller q f :
  TasksRoutes.buildQuery host caller q = Js.Ok f ->
  exists c s,
    TasksRoutes.categoryFilter host q = Js.Ok c
    /\ TasksRoutes.searchFilter host q = Js.Ok s
    /\ f = ([Mongo.UserIs caller; TasksRoutes.archivedCond q]
              ++ TasksRoutes.statusFilter q ++ TasksRoutes.priorityFilter q
              ++ c ++ s)%list.
Proof.
  unfold TasksRoutes.buildQuery. intros H.
  apply bind_Ok in H as (c & Hc & H). apply bind_Ok in H as (s & Hs & H).
  injection H as <-. eauto.
Qed.

Lemma buildQuery_owner host caller q f d :
  TasksRoutes.buildQuery host caller q = Js.Ok f ->
  Mongo.matches f d = true -> TaskDoc.user d = caller.
Proof.
  intros H M. apply buildQuery_shape in H as (c & s & _ & _ & ->).
  simpl in M. apply andb_prop in M as [M _]. now apply N.eqb_eq.
Qed.

(** What [listTasks] answers when no exception is raised. *)
Lemma listTasks_Respond host order caller q db code body :
  TasksRoutes.listTasks host order caller q db = Respond code body ->
  exists f skipped,
    TasksRoutes.buildQuery host caller q = Js.Ok f
    /\ Mongo.skip (TasksRoutes.skipOf q)
         (Mongo.sort order (TasksRoutes.sortKey q) (TasksRoutes.sortDir q)
            (Mongo.find f (tasks db))) = Js.Ok skipped
    /\ code = 200%nat
    /\ body =
       let found := map (Mongo.populate (users db))
                        (Mongo.limit (TasksRoutes.limitOf q) skipped) in
       let n := Mongo.countDocuments f (tasks db) in
       mkBody true None (TaskList found)
         (Some (mkPagination (TasksRoutes.pageOf q)
                  (Js.ceil_div (Z.of_nat n) (TasksRoutes.limitOf q))
                  (List.length found) n)).
Proof.
  unfold TasksRoutes.listTasks.
  destruct (TasksRoutes.buildQuery host caller q) as [f|e]; simpl; [|discriminate].
  destruct (Mongo.skip _ _) as [skipped|e] eqn:S; simpl; [|discriminate].
  intros [= <- <-]. exists f, skipped.
  split; [reflexivity | split; [exact S | split; reflexivity]].
Qed.

(** C1: every task in the result of a list request belongs to the
    collection and is owned by the caller, whatever the filter, sort and
    pagination parameters are; the populated owner, when there is one, is
    the caller too. *)
Theorem list_tasks_returns_only_own_tasks host order caller q db code body found :
  TasksRoutes.listTasks host order caller q db = Respond code body ->
  data body = TaskList found ->
  Forall (fun p =>
            In (Mongo.doc p) (tasks db)
            /\ TaskDoc.user (Mongo.doc p) = caller
            /\ (forall r, Mongo.owner p = Some r -> Mongo.ref_id r = caller))
         found.
Proof.
  intros H D.
  apply listTasks_Respond in H as (f & skipped & Hf & Hs & _ & ->).
  simpl in D. injection D as <-.
  apply Forall_forall. intros p Hp.
  apply in_map_iff in Hp as (d & <- & Hd).
  apply limit_In in Hd. eapply skip_In in Hd; [|exact Hs].
  apply sort_In, find_In in Hd as [Hin Hm].
  pose proof (buildQuery_owner _ _ _ _ _ Hf Hm) as Ho.
  rewrite populate_doc. repeat split; auto.
  intros r Hr. apply populate_owner in Hr. congruence.
Qed.

Lemma list_tasks_returns_only_own_tasks_witness :
  Forall (fun p =>
            In (Mongo.doc p) (tasks Sample.db)
            /\ TaskDoc.user (Mongo.doc p) = Sample.ann
            /\ (forall r, Mongo.owner p = Some r -> Mongo.ref_id r = Sample.ann))
         (map (Mongo.populate (users Sample.db)) [Sample.shopping; Sample.writeSpec]).
Proof.
  eapply (list_tasks_returns_only_own_tasks Sample.host Sample.order Sample.ann
            Sample.noQuery Sample.db); reflexivity.
Defined.

(** ** Single-task handlers *)

Lemma find_all_false {A : Type} (p : A -> bool) l :
  (forall x, In x l -> p x = false) -> List.find p l = None.
Proof.
  induction l as [|x l IH]; simpl; intros H; [reflexivity|].
  rewrite (H x (or_introl eq_refl)). apply IH. intros y Hy. apply H. now right.
Qed.

Lemma ownFilter_matches id caller d :
  Mongo.matches (TasksRoutes.ownFilter id caller) d = true
  <-> TaskDoc._id d = id /\ TaskDoc.user d = caller.
Proof.
  unfold TasksRoutes.ownFilter, Mongo.matches; simpl.
  rewrite andb_true_r, andb_true_iff, !N.eqb_eq. reflexivity.
Qed.

Lemma findOne_own_None id caller coll :
  (forall d, In d coll -> TaskDoc._id d = id -> TaskDoc.user d <> caller) ->
  Mongo.findOne (TasksRoutes.ownFilter id caller) coll = None.
Proof.
  intros H. apply find_all_false. intros d Hd.
  apply not_true_is_false. intros M.
  apply ownFilter_matches in M as [Hi Hu]. exact (H d Hd Hi Hu).
Qed.

(** C2: when the caller owns no task with the given id, whether no task
    has this id or another user owns the one that has it, each of get,
    update, delete and archive answers 404 with [success] false and the
    message of a missing task, and leaves the database as it is. *)
Theorem single_task_operations_answer_not_found valid caller id body db :
  (forall d, In d (tasks db) -> TaskDoc._id d = id -> TaskDoc.user d <> caller) ->
  let missing := Respond 404 (mkBody false (Some "Task not found") NoData None) in
  TasksRoutes.getTask caller id db = missing
  /\ TasksRoutes.updateTask valid caller id body db = (missing, db)
  /\ TasksRoutes.deleteTask caller id db = (missing, db)
  /\ TasksRoutes.archiveTask valid caller id db = (missing, db).
Proof.
  intros H missing. apply findOne_own_None in H.
  unfold TasksRoutes.getTask, TasksRoutes.updateTask, TasksRoutes.deleteTask,
    TasksRoutes.archiveTask.
  rewrite H. repeat split; reflexivity.
Qed.

Lemma single_task_operations_answer_not_found_witness :
  let missing := Respond 404 (mkBody false (Some "Task not found") NoData None) in
  (* a task of another user *)
  (TasksRoutes.getTask Sample.ann 21%N Sample.db = missing
   /\ TasksRoutes.updateTask Sample.valid Sample.ann 21%N
        (Mongo.mkUpdate [Mongo.Title "Mine"] None) Sample.db = (missing, Sample.db)
   /\ TasksRoutes.deleteTask Sample.ann 21%N Sample.db = (missing, Sample.db)
   /\ TasksRoutes.archiveTask Sample.valid Sample.ann 21%N Sample.db
     = (missing, Sample.db))
  (* no task at all *)
  /\ (TasksRoutes.getTask Sample.ann 99%N Sample.db = missing
      /\ TasksRoutes.updateTask Sample.valid Sample.ann 99%N
           (Mongo.mkUpdate [Mongo.Title "Mine"] None) Sample.db = (missing, Sample.db)
      /\ TasksRoutes.deleteTask Sample.ann 99%N Sample.db = (missing, Sample.db)
      /\ TasksRoutes.archiveTask Sample.valid Sample.ann 99%N Sample.db
        = (missing, Sample.db)).
Proof.
  split.
  - apply (single_task_operations_answer_not_found Sample.valid Sample.ann 21%N
             (Mongo.mkUpdate [Mongo.Title "Mine"] None) Sample.db).
    simpl. intros d [<-|[<-|[<-|[<-|[]]]]]; simpl; intros E; discriminate.
  - apply (single_task_operations_answer_not_found Sample.valid Sample.ann 99%N
             (Mongo.mkUpdate [Mongo.Title "Mine"] None) Sample.db).
    simpl. intros d [<-|[<-|[<-|[<-|[]]]]]; simpl; intros E; discriminate.
Defined.

(** ** Updates and the owner of a task *)

Lemma assign_keeps_owner a d :
  Mongo.path a <> "user" -> TaskDoc.user (Mongo.assign a d) = TaskDoc.user d.
Proof. destruct a; simpl; intros H; try reflexivity. now contradiction H. Qed.

Lemma fold_assign_keeps_owner l d :
  (forall a, In a l -> Mongo.path a <> "user") ->
  TaskDoc.user (fold_left (fun d' a => Mongo.assign a d') l d) = TaskDoc.user d.
Proof.
  revert d. induction l as [|a l IH]; simpl; intros d H; [reflexivity|].
  rewrite IH by (intros b Hb; apply H; now right).
  apply assign_keeps_owner, H. now left.
Qed.

Lemma delete_key_removes k u a :
  In a (Mongo.fields (Mongo.delete_key k u)) -> Mongo.path a <> k.
Proof.
  unfold Mongo.delete_key; simpl. intros H. apply filter_In in H as [_ H].
  apply negb_true_iff, String.eqb_neq in H. exact H.
Qed.

(** An update whose keys are all paths cannot move a task to another
    owner once its [user] key is deleted. *)
Lemma stripped_fields_keep_owner u d :
  Mongo.set_operator u = None ->
  TaskDoc.user (Mongo.apply_update (Mongo.delete_key "user" u) d)
  = TaskDoc.user d.
Proof.
  intros H. unfold Mongo.apply_update, Mongo.cast_update.
  replace (Mongo.set_operator (Mongo.delete_key "user" u)) with (@None (list Mongo.Assignment))
    by (symmetry; exact H).
  apply fold_assign_keeps_owner. intros a. apply delete_key_removes.
Qed.

(** C3: the owner of a task does not stay what it was at creation.
    Deleting the key [user] of the payload leaves the operator [$set]
    in place, and [$set] assigns the path [user]: a bulk update, and a
    single update alike, hands a task of Ann over to Bob, also when the
    payload carries a [user] key besides. *)
Theorem update_with_set_operator_changes_owner :
  let moved := TaskDoc.set_user Sample.bob Sample.writeSpec in
  let bulk :=
    TasksRoutes.mkBulk (TasksRoutes.IdsArray [11%N])
                       (Some (Sample.reassign Sample.bob)) in
  let both := Mongo.mkUpdate [Mongo.User Sample.ann]
                             (Some [Mongo.User Sample.bob]) in
  In Sample.writeSpec (tasks Sample.db)
  /\ TaskDoc.user Sample.writeSpec = Sample.ann
  /\ TaskDoc.user moved = Sample.bob
  /\ Mongo.findOne [Mongo.IdIs 11%N]
       (tasks (snd (TasksRoutes.bulkUpdate Sample.ann bulk Sample.db)))
     = Some moved
  /\ Mongo.findOne [Mongo.IdIs 11%N]
       (tasks (snd (TasksRoutes.updateTask Sample.valid Sample.ann 11%N both
                      Sample.db)))
     = Some moved.
Proof.
  simpl. repeat split; auto.
Qed.

(** ** PATCH /api/tasks/:id/archive *)

Lemma set_isArchived_twice b d :
  TaskDoc.set_isArchived (TaskDoc.isArchived d) (TaskDoc.set_isArchived b d) = d.
Proof. destruct d; reflexivity. Qed.

Lemma own_matches d :
  Mongo.matches (TasksRoutes.ownFilter (TaskDoc._id d) (TaskDoc.user d)) d = true.
Proof. apply ownFilter_matches. auto. Qed.

Lemma find_app_here {A : Type} (p : A -> bool) l1 x l2 :
  (forall y, In y l1 -> p y = false) -> p x = true ->
  List.find p (l1 ++ x :: l2) = Some x.
Proof.
  induction l1 as [|y l1 IH]; simpl; intros H Hx.
  - now rewrite Hx.
  - rewrite (H y (or_introl eq_refl)). apply IH; auto.
Qed.

Lemma update_first_app_here {A : Type} (p : A -> bool) f l1 x l2 :
  (forall y, In y l1 -> p y = false) -> p x = true ->
  Mongo.update_first p f (l1 ++ x :: l2) = (l1 ++ f x :: l2)%list.
Proof.
  induction l1 as [|y l1 IH]; simpl; intros H Hx.
  - now rewrite Hx.
  - rewrite (H y (or_introl eq_refl)). f_equal. apply IH; auto.
Qed.

(** A task of a collection with unique ids splits the collection in two
    parts that do not hold its id. *)
Lemma split_at_task coll d :
  Spec.unique_ids coll -> In d coll ->
  exists l1 l2,
    coll = (l1 ++ d :: l2)%list
    /\ forall x, In x (l1 ++ l2) -> TaskDoc._id x <> TaskDoc._id d.
Proof.
  unfold Spec.unique_ids. intros U Hin.
  apply in_split in Hin as (l1 & l2 & ->). exists l1, l2. split; [reflexivity|].
  rewrite map_app in U. cbn [map] in U. apply NoDup_remove_2 in U.
  intros x Hx E. apply U. rewrite <- map_app, <- E. now apply in_map.
Qed.

(** In a collection with unique ids, toggling the flag of a task through
    its owner's filter reaches this very task, and a second toggle gives
    the collection back. *)
Lemma toggle_in_collection coll d :
  Spec.unique_ids coll -> In d coll ->
  let own := TasksRoutes.ownFilter (TaskDoc._id d) (TaskDoc.user d) in
  let flipped := TaskDoc.set_isArchived (negb (TaskDoc.isArchived d)) d in
  let coll1 := Mongo.write_isArchived flipped coll in
  Mongo.findOne own coll = Some d
  /\ Mongo.findOne [Mongo.IdIs (TaskDoc._id d)] coll1 = Some flipped
  /\ Mongo.findOne own coll1 = Some flipped
  /\ Mongo.write_isArchived
       (TaskDoc.set_isArchived (negb (TaskDoc.isArchived flipped)) flipped) coll1
     = coll.
Proof.
  intros U Hin own flipped coll1.
  destruct (split_at_task coll d U Hin) as (l1 & l2 & E & Hne).
  assert (Hid : forall y, In y l1 -> Mongo.has_id (TaskDoc._id d) y = false).
  { intros y Hy. apply N.eqb_neq, Hne, in_or_app. now left. }
  assert (Hown : forall y, In y l1 -> Mongo.matches own y = false).
  { intros y Hy. apply not_true_is_false. intros M.
    apply ownFilter_matches in M as [M _]. revert M. apply Hne, in_or_app. now left. }
  assert (Hone : forall y, In y l1 ->
                   Mongo.matches [Mongo.IdIs (TaskDoc._id d)] y = false).
  { intros y Hy. unfold Mongo.matches; simpl. rewrite andb_true_r.
    apply (Hid y Hy). }
  assert (E1 : coll1 = (l1 ++ flipped :: l2)%list).
  { unfold coll1, Mongo.write_isArchived. rewrite E.
    change (TaskDoc._id flipped) with (TaskDoc._id d).
    rewrite update_first_app_here; auto. apply N.eqb_refl. }
  unfold Mongo.findOne, Mongo.write_isArchived. rewrite E1.
  repeat split.
  - rewrite E. apply find_app_here; auto. apply own_matches.
  - apply find_app_here; auto. unfold Mongo.matches; simpl. now rewrite N.eqb_refl.
  - apply find_app_here; auto. apply ownFilter_matches. auto.
  - change (TaskDoc._id (TaskDoc.set_isArchived (negb (TaskDoc.isArchived flipped)) flipped))
      with (TaskDoc._id d).
    rewrite update_first_app_here; auto; [|apply N.eqb_refl].
    rewrite E. do 2 f_equal. destruct d; simpl. now rewrite negb_involutive.
Qed.




(** ** Pagination *)





(** ** PATCH /api/tasks/bulk *)

Lemma option_eqb_eq {A : Type} (e : A -> A -> bool) :
  (forall a b, e a b = true <-> a = b) ->
  forall x y, TaskDoc.option_eqb e x y = true <-> x = y.
Proof.
  intros He [a|] [b|]; simpl; try (split; [discriminate|discriminate]); [|tauto].
  rewrite He. split; congruence.
Qed.

Lemma list_eqb_eq {A : Type} (e : A -> A -> bool) :
  (forall a b, e a b = true <-> a = b) ->
  forall x y, TaskDoc.list_eqb e x y = true <-> x = y.
Proof.
  intros He. induction x as [|a x IH]; intros [|b y]; simpl;
    try (split; [discriminate|discriminate]); [tauto|].
  rewrite andb_true_iff, He, IH. split; [intros [-> ->]; reflexivity|].
  intros [= -> ->]. auto.
Qed.

Lemma TaskDoc_eqb_eq a b : TaskDoc.eqb a b = true <-> a = b.
Proof.
  unfold TaskDoc.eqb. rewrite !andb_true_iff.
  rewrite !N.eqb_eq, !String.eqb_eq, Z.eqb_eq, Bool.eqb_true_iff.
  rewrite !(option_eqb_eq String.eqb String.eqb_eq).
  rewrite !(option_eqb_eq Z.eqb Z.eqb_eq).
  rewrite (list_eqb_eq String.eqb String.eqb_eq).
  split.
  - destruct a, b; simpl. intuition congruence.
  - intros ->. intuition.
Qed.

Lemma changes_iff u d :
  Mongo.changes u d = true <-> Mongo.apply_update u d <> d.
Proof.
  unfold Mongo.changes. rewrite negb_true_iff.
  split.
  - intros H E. apply TaskDoc_eqb_eq in E. congruence.
  - intros H. apply not_true_is_false. intros E. apply TaskDoc_eqb_eq in E. auto.
Qed.







(** ** Search by regular expression *)

Lemma dot_is_syntax c : RegExp.is_syntax_char c = false -> Ascii.eqb c "." = false.
Proof.
  unfold RegExp.is_syntax_char, RegExp.syntax_chars. simpl.
  destruct (Ascii.eqb c "."); [|reflexivity].
  now rewrite !orb_true_r.
Qed.

Lemma parse_plain s : RegExp.plain s = true -> RegExp.parse s = Some (RegExp.literal s).
Proof.
  induction s as [|c s IH]; simpl; [reflexivity|].
  intros H. apply andb_prop in H as [Hc Hs]. apply negb_true_iff in Hc.
  rewrite (IH Hs), (dot_is_syntax c Hc), Hc. reflexivity.
Qed.

Lemma upper_app a b : RegExp.upper (a ++ b) = RegExp.upper a ++ RegExp.upper b.
Proof. induction a as [|c a IH]; simpl; [reflexivity | now rewrite IH]. Qed.

Lemma upper_app_inv t a c :
  RegExp.upper t = a ++ c ->
  exists t1 t2, t = t1 ++ t2 /\ RegExp.upper t1 = a /\ RegExp.upper t2 = c.
Proof.
  revert t. induction a as [|x a IH]; simpl; intros t H.
  - exists EmptyString, t. auto.
  - destruct t as [|y t]; simpl in H; [discriminate|].
    injection H as Hx Ht. destruct (IH t Ht) as (t1 & t2 & -> & H1 & H2).
    exists (String y t1), t2. simpl. rewrite H1, Hx. auto.
Qed.

Lemma match_here_literal s t :
  RegExp.match_here (RegExp.literal s) t = true
  <-> exists b, RegExp.upper t = RegExp.upper s ++ b.
Proof.
  revert t. induction s as [|c s IH]; simpl; intros t.
  - split; [eauto | reflexivity].
  - destruct t as [|y t]; simpl.
    + split; [discriminate | intros [b H]; discriminate].
    + rewrite andb_true_iff, Ascii.eqb_eq, IH. split.
      * intros [E [b H]]. exists b. now rewrite E, H.
      * intros [b H]. injection H as E H. split; [auto | eauto].
Qed.

Lemma search_iff r t :
  RegExp.search r t = true
  <-> exists a t', t = a ++ t' /\ RegExp.match_here r t' = true.
Proof.
  induction t as [|c t IH]; simpl.
  - rewrite orb_false_r. split.
    + intros H. exists EmptyString, EmptyString. auto.
    + intros (a & t' & E & H). destruct a; [|discriminate].
      simpl in E. now subst t'.
  - rewrite orb_true_iff, IH. split.
    + intros [H|(a & t' & -> & H)].
      * exists EmptyString, (String c t). auto.
      * exists (String c a), t'. auto.
    + intros (a & t' & E & H). destruct a as [|x a]; simpl in E.
      * left. now subst t'.
      * injection E as -> ->. right. eauto.
Qed.

(** On a pattern without syntax characters, the expression tests for a
    substring, letter case ignored. *)
Lemma search_literal s t :
  RegExp.search (RegExp.literal s) t = true <-> RegExp.ci_substring s t.
Proof.
  rewrite search_iff. unfold RegExp.ci_substring. split.
  - intros (a & t' & -> & H). apply match_here_literal in H as [b H].
    exists (RegExp.upper a), b. now rewrite upper_app, H.
  - intros (a & b & H). apply upper_app_inv in H as (t1 & t2 & -> & _ & H2).
    exists t1, t2. split; [reflexivity|]. apply match_here_literal. eauto.
Qed.

Lemma new_RegExp_plain host s :
  RegExp.plain s = true ->
  RegExp.new_RegExp_i host s = Js.Ok (RegExp.search (RegExp.literal s)).
Proof. intros H. unfold RegExp.new_RegExp_i. now rewrite parse_plain. Qed.

Lemma truthy_Some s : s <> "" -> Js.truthy (Some s) = Some s.
Proof. destruct s; [congruence | reflexivity]. Qed.

Lemma searchFilter_plain host q s :
  TasksRoutes.search q = Some s -> s <> "" -> RegExp.plain s = true ->
  TasksRoutes.searchFilter host q
  = Js.Ok [Mongo.Or [Mongo.TitleRe (RegExp.search (RegExp.literal s));
                     Mongo.DescriptionRe (RegExp.search (RegExp.literal s));
                     Mongo.TagsInRe [RegExp.search (RegExp.literal s)]]].
Proof.
  intros Hq Hs Hp. unfold TasksRoutes.searchFilter.
  rewrite Hq, (truthy_Some s Hs), (new_RegExp_plain host s Hp). reflexivity.
Qed.

Lemma test_opt_iff r o :
  Mongo.test_opt r o = true <-> exists x, o = Some x /\ r x = true.
Proof.
  destruct o as [x|]; simpl.
  - split; [eauto | intros (y & [= ->] & H); exact H].
  - split; [discriminate | intros (y & [=] & _)].
Qed.

Lemma search_clause_mentions s d :
  Mongo.holds (Mongo.Or [Mongo.TitleRe (RegExp.search (RegExp.literal s));
                         Mongo.DescriptionRe (RegExp.search (RegExp.literal s));
                         Mongo.TagsInRe [RegExp.search (RegExp.literal s)]]) d = true
  <-> Spec.mentions s d.
Proof.
  unfold Spec.mentions. cbn [Mongo.holds existsb].
  rewrite !orb_false_r, !orb_true_iff, search_literal, test_opt_iff, existsb_exists.
  split.
  - intros [H|[(x & E & H)|(g & Hg & H)]]; [left; exact H | right; left | right; right].
    + exists x. split; [exact E|]. now apply search_literal.
    + exists g. split; [exact Hg|]. now apply search_literal.
  - intros [H|[(x & E & H)|(g & Hg & H)]]; [left; exact H | right; left | right; right].
    + exists x. split; [exact E|]. now apply search_literal.
    + exists g. split; [exact Hg|]. now apply search_literal.
Qed.

Lemma matches_app q1 q2 d :
  Mongo.matches (q1 ++ q2)%list d = Mongo.matches q1 d && Mongo.matches q2 d.
Proof. unfold Mongo.matches. apply forallb_app. Qed.

Lemma archivedCond_holds q d :
  Mongo.holds (TasksRoutes.archivedCond q) d = true
  <-> TaskDoc.isArchived d = false
      \/ TasksRoutes.includeArchived q = Some (TasksRoutes.QString "true").
Proof.
  unfold TasksRoutes.archivedCond.
  destruct (TasksRoutes.includeArchived q) as [[s|b|l]|]; simpl;
    try (rewrite eqb_true_iff; split; [auto | intros [H|H]; [exact H | discriminate H]]).
  destruct (String.eqb_spec s "true") as [->|Hs]; simpl.
  - split; [auto|]. intros _. destruct (TaskDoc.isArchived d); reflexivity.
  - rewrite eqb_true_iff. split; [auto|]. intros [H|[= H]]; [exact H | contradiction].
Qed.

Lemma statusFilter_matches q d :
  Mongo.matches (TasksRoutes.statusFilter q) d = true
  <-> forall x, Js.truthy (TasksRoutes.status q) = Some x -> TaskDoc.status d = x.
Proof.
  unfold TasksRoutes.statusFilter.
  destruct (Js.truthy (TasksRoutes.status q)) as [x|]; unfold Mongo.matches; simpl.
  - rewrite andb_true_r, String.eqb_eq. split; [intros H y [= <-]; exact H | auto].
  - split; [intros _ y [=] | reflexivity].
Qed.

Lemma priorityFilter_matches q d :
  Mongo.matches (TasksRoutes.priorityFilter q) d = true
  <-> forall x, Js.truthy (TasksRoutes.priority q) = Some x -> TaskDoc.priority d = x.
Proof.
  unfold TasksRoutes.priorityFilter.
  destruct (Js.truthy (TasksRoutes.priority q)) as [x|]; unfold Mongo.matches; simpl.
  - rewrite andb_true_r, String.eqb_eq. split; [intros H y [= <-]; exact H | auto].
  - split; [intros _ y [=] | reflexivity].
Qed.

Lemma categoryFilter_matches host q c d :
  TasksRoutes.categoryFilter host q = Js.Ok c ->
  Mongo.matches c d = true
  <-> forall x, Js.truthy (TasksRoutes.category q) = Some x ->
                exists r, RegExp.new_RegExp_i host x = Js.Ok r
                          /\ Mongo.test_opt r (TaskDoc.category d) = true.
Proof.
  unfold TasksRoutes.categoryFilter.
  destruct (Js.truthy (TasksRoutes.category q)) as [x|].
  - intros H. apply bind_Ok in H as (r & Hr & [= <-]).
    unfold Mongo.matches; simpl. rewrite andb_true_r. split.
    + intros H y [= <-]. eauto.
    + intros H. destruct (H x eq_refl) as (r' & Hr' & Ht). congruence.
  - intros [= <-]. split; [intros _ y [=] | reflexivity].
Qed.

(** What the filter of a list request asks of a task, key by key. *)
Lemma buildQuery_matches host caller q f c s d :
  TasksRoutes.buildQuery host caller q = Js.Ok f ->
  TasksRoutes.categoryFilter host q = Js.Ok c ->
  TasksRoutes.searchFilter host q = Js.Ok s ->
  Mongo.matches f d = true
  <-> TaskDoc.user d = caller
      /\ Mongo.holds (TasksRoutes.archivedCond q) d = true
      /\ Mongo.matches (TasksRoutes.statusFilter q) d = true
      /\ Mongo.matches (TasksRoutes.priorityFilter q) d = true
      /\ Mongo.matches c d = true
      /\ Mongo.matches s d = true.
Proof.
  intros Hf Hc Hs. apply buildQuery_shape in Hf as (c' & s' & Hc' & Hs' & ->).
  assert (c' = c) by congruence. assert (s' = s) by congruence. subst c' s'.
  change ([Mongo.UserIs caller; TasksRoutes.archivedCond q] ++
            TasksRoutes.statusFilter q ++ TasksRoutes.priorityFilter q ++ c ++ s)%list
    with (Mongo.UserIs caller :: TasksRoutes.archivedCond q ::
            (TasksRoutes.statusFilter q ++ TasksRoutes.priorityFilter q ++ c ++ s))%list.
  unfold Mongo.matches at 1. cbn [forallb].
  fold (Mongo.matches (TasksRoutes.statusFilter q ++ TasksRoutes.priorityFilter q ++ c ++ s)%list d).
  rewrite !matches_app, !andb_true_iff. cbn [Mongo.holds]. rewrite N.eqb_eq.
  reflexivity.
Qed.

(** C7 (amended): for a search parameter [s] that is not empty and has
    no character of the pattern syntax, a task satisfies the search
    clause exactly when [s] occurs, letter case ignored, in its title, in
    its description or in one of its tags; and a task matches the filter
    of the request exactly when it satisfies this clause and every other
    active filter: owner, archived, status, priority and category. *)
Theorem search_clause_is_substring_match_on_plain_text host caller q s :
  TasksRoutes.search q = Some s -> s <> "" -> RegExp.plain s = true ->
  exists clause,
    TasksRoutes.searchFilter host q = Js.Ok [clause]
    /\ (forall d, Mongo.holds clause d = true <-> Spec.mentions s d)
    /\ (forall f d,
          TasksRoutes.buildQuery host caller q = Js.Ok f ->
          Mongo.matches f d = true
          <-> TaskDoc.user d = caller
              /\ (TaskDoc.isArchived d = false
                  \/ TasksRoutes.includeArchived q
                     = Some (TasksRoutes.QString "true"))
              /\ (forall x, Js.truthy (TasksRoutes.status q) = Some x ->
                             TaskDoc.status d = x)
              /\ (forall x, Js.truthy (TasksRoutes.priority q) = Some x ->
                             TaskDoc.priority d = x)
              /\ (forall x, Js.truthy (TasksRoutes.category q) = Some x ->
                             exists r,
                               RegExp.new_RegExp_i host x = Js.Ok r
                               /\ Mongo.test_opt r (TaskDoc.category d) = true)
              /\ Spec.mentions s d).
Proof.
  intros Hq Hs Hp. eexists. split; [apply (searchFilter_plain host q s Hq Hs Hp)|].
  split; [apply search_clause_mentions|].
  intros f d Hf.
  destruct (buildQuery_shape host caller q f Hf) as (c & s' & Hc & Hs' & _).
  rewrite (buildQuery_matches host caller q f c s' d Hf Hc Hs').
  rewrite archivedCond_holds, statusFilter_matches, priorityFilter_matches.
  rewrite (categoryFilter_matches host q c d Hc).
  rewrite (searchFilter_plain host q s Hq Hs Hp) in Hs'. injection Hs' as <-.
  unfold Mongo.matches at 1. cbn [forallb]. rewrite andb_true_r.
  rewrite search_clause_mentions. reflexivity.
Qed.

Lemma search_clause_is_substring_match_on_plain_text_witness :
  exists clause,
    TasksRoutes.searchFilter Sample.host (Sample.searchFor "SPEC") = Js.Ok [clause]
    /\ (forall d, Mongo.holds clause d = true <-> Spec.mentions "SPEC" d)
    /\ (forall f d,
          TasksRoutes.buildQuery Sample.host Sample.ann (Sample.searchFor "SPEC")
          = Js.Ok f ->
          Mongo.matches f d = true
          <-> TaskDoc.user d = Sample.ann
              /\ (TaskDoc.isArchived d = false
                  \/ TasksRoutes.includeArchived (Sample.searchFor "SPEC")
                     = Some (TasksRoutes.QString "true"))
              /\ (forall x, Js.truthy (TasksRoutes.status (Sample.searchFor "SPEC"))
                             = Some x -> TaskDoc.status d = x)
              /\ (forall x, Js.truthy (TasksRoutes.priority (Sample.searchFor "SPEC"))
                             = Some x -> TaskDoc.priority d = x)
              /\ (forall x, Js.truthy (TasksRoutes.category (Sample.searchFor "SPEC"))
                             = Some x ->
                             exists r,
                               RegExp.new_RegExp_i Sample.host x = Js.Ok r
                               /\ Mongo.test_opt r (TaskDoc.category d) = true)
              /\ Spec.mentions "SPEC" d).
Proof.
  apply (search_clause_is_substring_match_on_plain_text Sample.host Sample.ann
           (Sample.searchFor "SPEC") "SPEC");
    [reflexivity | discriminate | reflexivity].
Defined.

(** C7 as stated fails: the parameter is a regular expression, and the
    pattern [.] matches the title [x], in which no dot occurs. *)
Lemma search_dot_matches_without_substring :
  exists clause,
    TasksRoutes.searchFilter Sample.host (Sample.searchFor ".") = Js.Ok [clause]
    /\ Mongo.holds clause Sample.shopping = true
    /\ ~ Spec.mentions "." Sample.shopping.
Proof.
  eexists. split; [reflexivity|]. split; [reflexivity|].
  unfold Spec.mentions. simpl.
  intros [(a & b & H)|[(x & [=] & _)|(g & [] & _)]].
  destruct a as [|c a]; simpl in H; [discriminate|].
  injection H as _ H. destruct a; discriminate.
Qed.

(** ** GET /api/tasks/stats/overview *)

Lemma obj_get_set_same {V : Type} k (v : V) o :
  Js.obj_get k (Js.obj_set k v o) = Some v.
Proof.
  induction o as [|[k' v'] o IH]; simpl.
  - now rewrite String.eqb_refl.
  - destruct (String.eqb k k') eqn:E; simpl; rewrite E; [reflexivity | exact IH].
Qed.

Lemma obj_get_set_other {V : Type} k k' (v : V) o :
  k <> k' -> Js.obj_get k (Js.obj_set k' v o) = Js.obj_get k o.
Proof.
  intros Hne. induction o as [|[k1 v1] o IH]; simpl.
  - apply String.eqb_neq in Hne. now rewrite Hne.
  - destruct (String.eqb k' k1) eqn:E; simpl.
    + apply String.eqb_eq in E. subst k1.
      apply String.eqb_neq in Hne. now rewrite Hne.
    + now rewrite IH.
Qed.

Lemma openStatus_holds d :
  Mongo.holds TasksRoutes.openStatus d = Spec.is_open d.
Proof.
  unfold TasksRoutes.openStatus, Spec.is_open. cbn [Mongo.holds existsb].
  now rewrite orb_false_r, negb_orb.
Qed.

Lemma not_archived_holds d :
  Mongo.holds (Mongo.ArchivedIs false) d = negb (TaskDoc.isArchived d).
Proof. simpl. now destruct (TaskDoc.isArchived d). Qed.

Lemma overdueFilter_matches caller now d :
  Mongo.matches (TasksRoutes.overdueFilter caller now) d
  = Spec.overdue caller now d.
Proof.
  unfold Mongo.matches, TasksRoutes.overdueFilter, Spec.overdue. cbn [forallb].
  rewrite openStatus_holds, not_archived_holds. cbn [Mongo.holds].
  destruct (N.eqb (TaskDoc.user d) caller), (negb (TaskDoc.isArchived d)),
    (Spec.is_open d), (TaskDoc.dueDate d) as [due|]; simpl;
    try reflexivity; now rewrite ?andb_true_r, ?andb_false_r.
Qed.

Lemma dueTodayFilter_matches caller lo hi d :
  Mongo.matches (TasksRoutes.dueTodayFilter caller lo hi) d
  = Spec.due_within caller lo hi d.
Proof.
  unfold Mongo.matches, TasksRoutes.dueTodayFilter, Spec.due_within. cbn [forallb].
  rewrite openStatus_holds, not_archived_holds. cbn [Mongo.holds].
  destruct (N.eqb (TaskDoc.user d) caller), (negb (TaskDoc.isArchived d)),
    (Spec.is_open d), (TaskDoc.dueDate d) as [due|]; simpl;
    try reflexivity; now rewrite ?andb_true_r, ?andb_false_r.
Qed.

Lemma countDocuments_ext q p coll :
  (forall d, Mongo.matches q d = p d) ->
  Mongo.countDocuments q coll = List.length (filter p coll).
Proof.
  intros H. unfold Mongo.countDocuments. now rewrite (filter_ext _ _ H).
Qed.

(** C8: the statistics of a caller report as [overdue] the number of
    the caller's tasks that are not archived, neither completed nor
    cancelled, and due strictly before the instant [now] read during the
    request; and as [dueToday] the number of those due from the start of
    the local day of [today], the next reading of the clock, up to but
    not including the start of the next local day. *)
Theorem stats_overview_counts_overdue_and_due_today
    getTaskStats getFullYear getMonth getDate newDate caller now today db :
  let dayStart :=
    newDate (getFullYear today) (getMonth today) (getDate today) in
  let nextDayStart :=
    newDate (getFullYear today) (getMonth today) (getDate today + 1) in
  exists o,
    TasksRoutes.statsOverview getTaskStats getFullYear getMonth getDate newDate
      caller now today db
    = Respond 200 (mkBody true None (Stats o) None)
    /\ Js.obj_get "overdue" o
       = Some (Js.JNum (Z.of_nat
            (List.length (filter (Spec.overdue caller now) (tasks db)))))
    /\ Js.obj_get "dueToday" o
       = Some (Js.JNum (Z.of_nat
            (List.length
               (filter (Spec.due_within caller dayStart nextDayStart)
                       (tasks db))))).
Proof.
  intros dayStart nextDayStart. eexists. split; [reflexivity|].
  rewrite obj_get_set_other by discriminate.
  rewrite !obj_get_set_same.
  rewrite (countDocuments_ext _ _ _ (overdueFilter_matches caller now)).
  unfold TasksRoutes.todayStartOf, TasksRoutes.todayEndOf.
  rewrite (countDocuments_ext _ _ _
             (dueTodayFilter_matches caller dayStart nextDayStart)).
  split; reflexivity.
Qed.

(** ** DELETE /api/users/account *)

Lemma update_first_none {A : Type} (p : A -> bool) f l :
  (forall x, In x l -> p x = false) -> Mongo.update_first p f l = l.
Proof.
  induction l as [|x l IH]; simpl; intros H; [reflexivity|].
  rewrite (H x (or_introl eq_refl)). f_equal. apply IH. intros y Hy. apply H. now right.
Qed.





(** ** The includeArchived parameter *)

Lemma statusFilter_ignores_archived q b d :
  Mongo.matches (TasksRoutes.statusFilter q) (TaskDoc.set_isArchived b d)
  = Mongo.matches (TasksRoutes.statusFilter q) d.
Proof.
  unfold TasksRoutes.statusFilter. now destruct (Js.truthy (TasksRoutes.status q)).
Qed.

Lemma priorityFilter_ignores_archived q b d :
  Mongo.matches (TasksRoutes.priorityFilter q) (TaskDoc.set_isArchived b d)
  = Mongo.matches (TasksRoutes.priorityFilter q) d.
Proof.
  unfold TasksRoutes.priorityFilter. now destruct (Js.truthy (TasksRoutes.priority q)).
Qed.

Lemma categoryFilter_ignores_archived host q c b d :
  TasksRoutes.categoryFilter host q = Js.Ok c ->
  Mongo.matches c (TaskDoc.set_isArchived b d) = Mongo.matches c d.
Proof.
  unfold TasksRoutes.categoryFilter.
  destruct (Js.truthy (TasksRoutes.category q)) as [x|].
  - intros H. apply bind_Ok in H as (r & _ & [= <-]). reflexivity.
  - intros [= <-]. reflexivity.
Qed.

Lemma searchFilter_ignores_archived host q s b d :
  TasksRoutes.searchFilter host q = Js.Ok s ->
  Mongo.matches s (TaskDoc.set_isArchived b d) = Mongo.matches s d.
Proof.
  unfold TasksRoutes.searchFilter.
  destruct (Js.truthy (TasksRoutes.search q)) as [x|].
  - intros H. apply bind_Ok in H as (r1 & _ & H).
    apply bind_Ok in H as (r2 & _ & H). apply bind_Ok in H as (r3 & _ & [= <-]).
    reflexivity.
  - intros [= <-]. reflexivity.
Qed.

(** C10: a task is a candidate of a list request exactly when it would
    be one were it not archived and, if it is archived, the parameter
    [includeArchived] is the string [true]: with any other value, or
    without the parameter, only tasks that are not archived match. *)
Theorem archived_tasks_match_only_with_the_string_true host caller q f d :
  TasksRoutes.buildQuery host caller q = Js.Ok f ->
  Mongo.matches f d = true
  <-> Mongo.matches f (TaskDoc.set_isArchived false d) = true
      /\ (TaskDoc.isArchived d = true ->
          TasksRoutes.includeArchived q = Some (TasksRoutes.QString "true")).
Proof.
  intros Hf.
  destruct (buildQuery_shape host caller q f Hf) as (c & s & Hc & Hs & _).
  rewrite !(buildQuery_matches host caller q f c s _ Hf Hc Hs).
  rewrite statusFilter_ignores_archived, priorityFilter_ignores_archived.
  rewrite (categoryFilter_ignores_archived host q c false d Hc).
  rewrite (searchFilter_ignores_archived host q s false d Hs).
  rewrite !archivedCond_holds.
  change (TaskDoc.user (TaskDoc.set_isArchived false d)) with (TaskDoc.user d).
  change (TaskDoc.isArchived (TaskDoc.set_isArchived false d)) with false.
  destruct (TaskDoc.isArchived d); intuition congruence.
Qed.

Lemma archived_tasks_match_only_with_the_string_true_witness :
  let q := Sample.withArchived (TasksRoutes.QBoolean true) in
  let f := [Mongo.UserIs Sample.ann; Mongo.ArchivedIs false] in
  Mongo.matches f Sample.review = true
  <-> Mongo.matches f (TaskDoc.set_isArchived false Sample.review) = true
      /\ (TaskDoc.isArchived Sample.review = true ->
          TasksRoutes.includeArchived q = Some (TasksRoutes.QString "true")).
Proof.
  apply (archived_tasks_match_only_with_the_string_true Sample.host Sample.ann
           (Sample.withArchived (TasksRoutes.QBoolean true))
           [Mongo.UserIs Sample.ann; Mongo.ArchivedIs false] Sample.review).
  reflexivity.
Defined.

(** * Further properties of the handlers *)

(** ** POST /api/tasks *)

Lemma fold_assign_id l d :
  TaskDoc._id (fold_left (fun d' a => Mongo.assign a d') l d) = TaskDoc._id d.
Proof.
  revert d. induction l as [|a l IH]; simpl; intros d; [reflexivity|].
  rewrite IH. now destruct a.
Qed.

Lemma fold_assign_owner_set l c d :
  (forall a, In a l -> Mongo.path a = "user" -> a = Mongo.User c) ->
  TaskDoc.user d = c ->
  TaskDoc.user (fold_left (fun d' a => Mongo.assign a d') l d) = c.
Proof.
  revert d. induction l as [|a l IH]; simpl; intros d H Hd; [exact Hd|].
  apply IH; [intros b Hb; apply H; now right|].
  destruct (String.eqb_spec (Mongo.path a) "user") as [E|E].
  - rewrite (H a (or_introl eq_refl) E). reflexivity.
  - rewrite assign_keeps_owner; assumption.
Qed.

Lemma stampOwner_user_keys caller body a :
  In a (TasksRoutes.stampOwner caller body) ->
  Mongo.path a = "user" -> a = Mongo.User caller.
Proof.
  unfold TasksRoutes.stampOwner.
  destruct (existsb _ body) eqn:E.
  - intros Hin Hp. apply in_map_iff in Hin as (b & <- & _).
    destruct (String.eqb_spec (Mongo.path b) "user") as [_|Hb]; [reflexivity|].
    contradiction.
  - intros Hin Hp. apply in_app_or in Hin as [Hin|[<-|[]]]; [|reflexivity].
    exfalso. apply Bool.not_true_iff_false in E. apply E.
    apply existsb_exists. exists a. split; [exact Hin|]. now apply String.eqb_eq.
Qed.

Lemma stampOwner_has_user caller body :
  exists l1 l2,
    TasksRoutes.stampOwner caller body = (l1 ++ Mongo.User caller :: l2)%list.
Proof.
  unfold TasksRoutes.stampOwner.
  destruct (existsb _ body) eqn:E.
  - apply existsb_exists in E as (a & Hin & Ha).
    apply in_split in Hin as (l1 & l2 & ->).
    rewrite map_app. cbn [map]. rewrite Ha. eauto.
  - exists body, []. reflexivity.
Qed.

Lemma stamped_owner caller body d :
  TaskDoc.user
    (fold_left (fun d' a => Mongo.assign a d')
               (TasksRoutes.stampOwner caller body) d) = caller.
Proof.
  destruct (stampOwner_has_user caller body) as (l1 & l2 & E).
  pose proof (stampOwner_user_keys caller body) as K. rewrite E in *.
  rewrite fold_left_app. cbn [fold_left].
  apply fold_assign_owner_set; [|reflexivity].
  intros a Ha. apply K, in_or_app. right. now right.
Qed.

(** X1: a creation either passes an exception on and leaves the database
    as it is, or answers 201 with a task that is owned by the caller,
    whatever [user] key the body carried, and appends this task to the
    collection, whose other tasks stay in place. *)
Theorem create_task_stamps_the_caller_as_owner valid fresh caller body db :
  let out := TasksRoutes.createTask valid fresh caller body db in
  (exists d,
      fst out
      = Respond 201
          (mkBody true (Some "Task created successfully")
             (OneTask (Mongo.populate (users db) d)) None)
      /\ snd out = mkDb (users db) (tasks db ++ [d])
      /\ TaskDoc.user d = caller
      /\ TaskDoc._id d = TaskDoc._id fresh)
  \/ (exists e, out = (Next e, db)).
Proof.
  intros out. subst out. unfold TasksRoutes.createTask, Mongo.create.
  destruct (Mongo.has_title _ && Mongo.validate valid _); [|right; eauto].
  destruct (existsb _ (tasks db)); [right; eauto|].
  left. eexists. cbn [fst snd]. split; [reflexivity|]. split; [reflexivity|].
  split; [apply stamped_owner | apply fold_assign_id].
Qed.

(** ** Unique ids *)

Lemma update_first_ids {A B : Type} (g : A -> B) p f l :
  (forall x, g (f x) = g x) ->
  map g (Mongo.update_first p f l) = map g l.
Proof.
  intros H. induction l as [|x l IH]; simpl; [reflexivity|].
  destruct (p x); simpl; [now rewrite H | now rewrite IH].
Qed.

Lemma remove_first_In {A : Type} (p : A -> bool) l x :
  In x (Mongo.remove_first p l) -> In x l.
Proof.
  induction l as [|y l IH]; simpl; [easy|].
  destruct (p y); simpl; [auto | intros [H|H]; auto].
Qed.

Lemma remove_first_NoDup {A B : Type} (g : A -> B) p l :
  NoDup (map g l) -> NoDup (map g (Mongo.remove_first p l)).
Proof.
  induction l as [|y l IH]; simpl; intros H; [constructor|].
  apply NoDup_cons_iff in H as [Hy Hl].
  destruct (p y); simpl; [exact Hl|].
  constructor; [|auto]. intros Hin. apply Hy.
  apply in_map_iff in Hin as (x & E & Hx). apply in_map_iff.
  exists x. split; [exact E|]. eapply remove_first_In, Hx.
Qed.

Lemma apply_update_id u d :
  TaskDoc._id (Mongo.apply_update u d) = TaskDoc._id d.
Proof. apply fold_assign_id. Qed.

(** X2: the ids of the task collection stay unique under every handler
    that writes: create, update, delete, archive and bulk update. *)
Theorem task_handlers_keep_ids_unique valid fresh caller id body ubody bbody db :
  Spec.unique_ids (tasks db) ->
  Spec.unique_ids (tasks (snd (TasksRoutes.createTask valid fresh caller body db)))
  /\ Spec.unique_ids (tasks (snd (TasksRoutes.updateTask valid caller id ubody db)))
  /\ Spec.unique_ids (tasks (snd (TasksRoutes.deleteTask caller id db)))
  /\ Spec.unique_ids (tasks (snd (TasksRoutes.archiveTask valid caller id db)))
  /\ Spec.unique_ids (tasks (snd (TasksRoutes.bulkUpdate caller bbody db))).
Proof.
  unfold Spec.unique_ids. intros U. repeat split.
  - unfold TasksRoutes.createTask, Mongo.create.
    destruct (Mongo.has_title _ && Mongo.validate valid _); [|exact U].
    destruct (existsb _ (tasks db)) eqn:E; [exact U|]. cbn [snd tasks].
    rewrite map_app. cbn [map].
    apply NoDup_app; [exact U | constructor; [easy | constructor] |].
    intros i Hi [<-|[]].
    apply in_map_iff in Hi as (x & Hx & Hin).
    apply Bool.not_true_iff_false in E. apply E.
    apply existsb_exists. exists x. split; [exact Hin|]. now apply N.eqb_eq.
  - unfold TasksRoutes.updateTask, Mongo.findByIdAndUpdate.
    destruct (Mongo.findOne _ _); [|exact U].
    destruct (forallb valid _); [|exact U].
    destruct (option_map _ _); cbn [snd tasks];
      (rewrite update_first_ids; [exact U | intros x; apply apply_update_id]).
  - unfold TasksRoutes.deleteTask.
    destruct (Mongo.findOne _ _); [|exact U]. cbn [snd tasks].
    apply remove_first_NoDup, U.
  - unfold TasksRoutes.archiveTask, Mongo.save_isArchived.
    destruct (Mongo.findOne _ _) as [d|]; [|exact U].
    destruct (Mongo.validate valid _); [|exact U]. cbn [snd tasks].
    unfold Mongo.write_isArchived.
    rewrite update_first_ids; [exact U | intros x; now destruct x].
  - unfold TasksRoutes.bulkUpdate.
    destruct (TasksRoutes.taskIds bbody) as [| |[|i ids]]; try exact U.
    destruct (TasksRoutes.updates bbody) as [u|]; [|exact U].
    destruct (Nat.eqb _ 0); [exact U|].
    unfold Mongo.updateMany. cbn [snd tasks]. rewrite map_map.
    erewrite map_ext; [exact U|]. intros d. cbn beta.
    destruct (Mongo.matches _ d); [apply apply_update_id | reflexivity].
Qed.

Lemma task_handlers_keep_ids_unique_witness :
  Spec.unique_ids
    (tasks (snd (TasksRoutes.createTask Sample.valid Fixtures.blank Sample.ann
                   [Mongo.Title "Again"] Sample.db)))
  /\ Spec.unique_ids
       (tasks (snd (TasksRoutes.updateTask Sample.valid Sample.ann 11%N
                      (Mongo.mkUpdate [Mongo.Status "completed"] None) Sample.db)))
  /\ Spec.unique_ids (tasks (snd (TasksRoutes.deleteTask Sample.ann 11%N Sample.db)))
  /\ Spec.unique_ids
       (tasks (snd (TasksRoutes.archiveTask Sample.valid Sample.ann 11%N Sample.db)))
  /\ Spec.unique_ids
       (tasks (snd (TasksRoutes.bulkUpdate Sample.ann
                      (TasksRoutes.mkBulk (TasksRoutes.IdsArray [11%N; 13%N])
                         (Some (Mongo.mkUpdate [Mongo.Priority "high"] None)))
                      Sample.db))).
Proof.
  apply (task_handlers_keep_ids_unique Sample.valid Fixtures.blank Sample.ann
           11%N [Mongo.Title "Again"]
           (Mongo.mkUpdate [Mongo.Status "completed"] None)
           (TasksRoutes.mkBulk (TasksRoutes.IdsArray [11%N; 13%N])
              (Some (Mongo.mkUpdate [Mongo.Priority "high"] None)))
           Sample.db).
  unfold Spec.unique_ids. simpl.
  repeat (constructor; [simpl; intuition discriminate|]). constructor.
Defined.

(** ** DELETE /api/tasks/:id *)

Lemma remove_first_app_here {A : Type} (p : A -> bool) l1 x l2 :
  (forall y, In y l1 -> p y = false) -> p x = true ->
  Mongo.remove_first p (l1 ++ x :: l2) = (l1 ++ l2)%list.
Proof.
  induction l1 as [|y l1 IH]; simpl; intros H Hx.
  - now rewrite Hx.
  - rewrite (H y (or_introl eq_refl)). f_equal. apply IH; auto.
Qed.

(** X3: deleting a task the caller owns answers 200 and removes this
    task and no other: the collection afterwards holds exactly the tasks
    with another id, one task less, and the caller no longer finds the
    task. Ids are unique in the collection. *)
Theorem delete_task_removes_exactly_the_task caller id db d :
  Spec.unique_ids (tasks db) ->
  In d (tasks db) -> TaskDoc._id d = id -> TaskDoc.user d = caller ->
  let out := TasksRoutes.deleteTask caller id db in
  fst out
  = Respond 200 (mkBody true (Some "Task deleted successfully") NoData None)
  /\ users (snd out) = users db
  /\ (forall x, In x (tasks (snd out))
                <-> In x (tasks db) /\ TaskDoc._id x <> id)
  /\ S (List.length (tasks (snd out))) = List.length (tasks db)
  /\ TasksRoutes.getTask caller id (snd out)
     = Respond 404 (mkBody false (Some "Task not found") NoData None).
Proof.
  intros U Hin <- <- out. subst out.
  destruct (toggle_in_collection (tasks db) d U Hin) as (H1 & _).
  destruct (split_at_task (tasks db) d U Hin) as (l1 & l2 & E & Hne).
  unfold TasksRoutes.deleteTask. rewrite H1. cbn [fst snd users tasks].
  assert (R : Mongo.findByIdAndDelete (TaskDoc._id d) (tasks db) = (l1 ++ l2)%list).
  { unfold Mongo.findByIdAndDelete. rewrite E. apply remove_first_app_here.
    - intros y Hy. apply N.eqb_neq, Hne, in_or_app. now left.
    - apply N.eqb_refl. }
  rewrite R.
  assert (M : forall x, In x (l1 ++ l2)
                        <-> In x (tasks db) /\ TaskDoc._id x <> TaskDoc._id d).
  { intros x. rewrite E. rewrite !in_app_iff. cbn [In]. split.
    - intros H. split; [tauto|]. apply Hne, in_or_app. exact H.
    - intros [[H|[<-|H]] Hx]; [auto | contradiction | auto]. }
  split; [reflexivity|]. split; [reflexivity|]. split; [exact M|]. split.
  - rewrite E, !length_app. simpl. lia.
  - unfold TasksRoutes.getTask. cbn [tasks].
    rewrite findOne_own_None; [reflexivity|].
    intros x Hx Ex. apply M in Hx as [_ Hx]. contradiction.
Qed.

Lemma sample_ids_unique : Spec.unique_ids (tasks Sample.db).
Proof.
  unfold Spec.unique_ids. simpl.
  repeat (constructor; [simpl; intuition discriminate|]). constructor.
Qed.

Lemma delete_task_removes_exactly_the_task_witness :
  let out := TasksRoutes.deleteTask Sample.ann 11%N Sample.db in
  fst out
  = Respond 200 (mkBody true (Some "Task deleted successfully") NoData None)
  /\ users (snd out) = users Sample.db
  /\ (forall x, In x (tasks (snd out))
                <-> In x (tasks Sample.db) /\ TaskDoc._id x <> 11%N)
  /\ S (List.length (tasks (snd out))) = List.length (tasks Sample.db)
  /\ TasksRoutes.getTask Sample.ann 11%N (snd out)
     = Respond 404 (mkBody false (Some "Task not found") NoData None).
Proof.
  apply (delete_task_removes_exactly_the_task Sample.ann 11%N Sample.db
           Sample.writeSpec).
  - exact sample_ids_unique.
  - simpl. auto.
  - reflexivity.
  - reflexivity.
Defined.

(** ** GET /api/tasks/:id *)


(** ** PUT /api/tasks/:id *)




(** ** GET /api/tasks: counts, edge values of the parameters, order *)







Section SortedFacts.
Variable order : string -> TaskDoc.t -> TaskDoc.t -> comparison.
Variable k : string.
Variable dir : Z.
Hypothesis total : forall a b, order k a b = Gt -> order k b a <> Gt.

Let le (a b : TaskDoc.t) : Prop := Mongo.in_order order k dir a b = true.

Lemma in_order_total a b :
  Mongo.in_order order k dir a b = false -> Mongo.in_order order k dir b a = true.
Proof.
  unfold Mongo.in_order. destruct (dir =? 1).
  - destruct (order k a b) eqn:E; try discriminate. intros _.
    pose proof (total a b E). now destruct (order k b a).
  - destruct (order k b a) eqn:E; try discriminate. intros _.
    pose proof (total b a E). now destruct (order k a b).
Qed.

Lemma insert_sorted_Sorted x l :
  Sorted le l -> Sorted le (Mongo.insert_sorted order k dir x l).
Proof.
  induction l as [|y l IH]; simpl; intros S.
  - repeat constructor.
  - destruct (Mongo.in_order order k dir x y) eqn:E.
    + constructor; [exact S | constructor; exact E].
    + apply Sorted_inv in S as [S Hd]. constructor; [apply IH, S|].
      destruct l as [|z l]; simpl.
      * constructor. apply in_order_total, E.
      * destruct (Mongo.in_order order k dir x z).
        -- constructor. apply in_order_total, E.
        -- constructor. now apply HdRel_inv in Hd.
Qed.

Lemma sort_Sorted l : Sorted le (Mongo.sort order k dir l).
Proof.
  induction l as [|x l IH]; simpl; [constructor | now apply insert_sorted_Sorted].
Qed.
End SortedFacts.

Lemma Sorted_tl {A : Type} (R : A -> A -> Prop) x l : Sorted R (x :: l) -> Sorted R l.
Proof. intros S. now apply Sorted_inv in S. Qed.

Lemma Sorted_skipn {A : Type} (R : A -> A -> Prop) n l :
  Sorted R l -> Sorted R (skipn n l).
Proof.
  revert l. induction n as [|n IH]; intros [|x l] S; simpl; auto.
  apply IH. eapply Sorted_tl, S.
Qed.

Lemma Sorted_firstn {A : Type} (R : A -> A -> Prop) n l :
  Sorted R l -> Sorted R (firstn n l).
Proof.
  revert l. induction n as [|n IH]; intros [|x l] S; simpl; try constructor.
  - apply IH. eapply Sorted_tl, S.
  - apply Sorted_inv in S as [_ Hd].
    destruct l as [|y l]; destruct n; simpl; constructor. now apply HdRel_inv in Hd.
Qed.

Lemma Sorted_impl {A : Type} (R R' : A -> A -> Prop) l :
  (forall a b, R a b -> R' a b) -> Sorted R l -> Sorted R' l.
Proof.
  intros H. induction l as [|x l IH]; intros S; [constructor|].
  apply Sorted_inv in S as [S Hd]. constructor; [auto|].
  destruct l; constructor. apply HdRel_inv in Hd. auto.
Qed.

Lemma Sorted_map {A B : Type} (R : A -> A -> Prop) (f : B -> A) l :
  Sorted R (map f l) <-> Sorted (fun a b => R (f a) (f b)) l.
Proof.
  induction l as [|x l IH]; simpl; [split; constructor|].
  split; intros S; apply Sorted_inv in S as [S Hd]; (constructor; [now apply IH|]);
    destruct l; simpl in *; constructor; now apply HdRel_inv in Hd.
Qed.

(** X8: the tasks of an answer come in the requested order: ascending
    by the sort key when [sortOrder] is [asc] and descending otherwise,
    each task and the next one compared as the store compares them. The
    store's comparison on the key is total. *)
Theorem list_tasks_answers_in_sort_order host order caller q db code body found :
  (forall a b, order (TasksRoutes.sortKey q) a b = Gt ->
               order (TasksRoutes.sortKey q) b a <> Gt) ->
  TasksRoutes.listTasks host order caller q db = Respond code body ->
  data body = TaskList found ->
  Sorted (fun p1 p2 =>
            (if String.eqb (Js.default "desc" (TasksRoutes.sortOrder q)) "asc"
             then order (TasksRoutes.sortKey q) (Mongo.doc p1) (Mongo.doc p2)
             else order (TasksRoutes.sortKey q) (Mongo.doc p2) (Mongo.doc p1))
            <> Gt)
         found.
Proof.
  intros T H D.
  apply listTasks_Respond in H as (f & skipped & _ & Hs & _ & ->).
  simpl in D. injection D as <-.
  assert (S : Sorted (fun a b => Mongo.in_order order (TasksRoutes.sortKey q)
                                   (TasksRoutes.sortDir q) a b = true)
                     (Mongo.limit (TasksRoutes.limitOf q) skipped)).
  { unfold Mongo.limit. unfold Mongo.skip in Hs.
    destruct (TasksRoutes.skipOf q <? 0); [discriminate|]. injection Hs as <-.
    destruct (TasksRoutes.limitOf q =? 0); [|apply Sorted_firstn];
      apply Sorted_skipn, sort_Sorted, T. }
  apply Sorted_map. revert S. apply Sorted_impl.
  intros a b. rewrite !populate_doc.
  unfold Mongo.in_order, TasksRoutes.sortDir.
  destruct (String.eqb _ "asc"); simpl;
    [destruct (order _ a b) | destruct (order _ b a)]; intros H; congruence.
Qed.

Lemma list_tasks_answers_in_sort_order_witness :
  Sorted (fun p1 p2 =>
            (if String.eqb (Js.default "desc" (TasksRoutes.sortOrder Sample.noQuery))
                           "asc"
             then Sample.order (TasksRoutes.sortKey Sample.noQuery)
                               (Mongo.doc p1) (Mongo.doc p2)
             else Sample.order (TasksRoutes.sortKey Sample.noQuery)
                               (Mongo.doc p2) (Mongo.doc p1))
            <> Gt)
         (map (Mongo.populate (users Sample.db)) [Sample.shopping; Sample.writeSpec]).
Proof.
  eapply (list_tasks_answers_in_sort_order Sample.host Sample.order Sample.ann
            Sample.noQuery Sample.db).
  - intros a b. unfold Sample.order. rewrite Z.compare_gt_iff, Z.compare_gt_iff. lia.
  - reflexivity.
  - reflexivity.
Defined.

(** ** GET /api/tasks/stats/overview: the other statistics *)

(** X9: the answer carries every entry of the statistics of the model
    under its key, except under [overdue] and [dueToday], which hold the
    two counts of the handler. *)
Theorem stats_overview_keeps_the_model_statistics
    getTaskStats getFullYear getMonth getDate newDate caller now today db :
  exists o,
    TasksRoutes.statsOverview getTaskStats getFullYear getMonth getDate newDate
      caller now today db
    = Respond 200 (mkBody true None (Stats o) None)
    /\ forall k, k <> "overdue" -> k <> "dueToday" ->
                 Js.obj_get k o = Js.obj_get k (getTaskStats caller (tasks db)).
Proof.
  eexists. split; [reflexivity|]. intros k H1 H2.
  now rewrite !obj_get_set_other.
Qed.

(** ** PATCH /api/tasks/bulk: the same request twice *)






(** ** PATCH /api/tasks/:id/archive: every outcome *)



(** ** PUT /api/users/profile *)







Lemma obj_get_None {V : Type} k (o : Js.Obj V) :
  ~ In k (map fst o) -> Js.obj_get k o = None.
Proof.
  induction o as [|[k1 v1] o IH]; simpl; [reflexivity|].
  intros H. destruct (String.eqb_spec k k1) as [->|_]; [tauto | auto].
Qed.

Lemma pickAllowed_get body k :
  NoDup (map fst body) -> In k UsersRoutes.allowedFields ->
  Js.obj_get k (UsersRoutes.pickAllowed body) = Js.obj_get k body.
Proof.
  intros U A. unfold UsersRoutes.pickAllowed.
  assert (G : forall acc,
             Js.obj_get k
               (fold_left
                  (fun updates kv =>
                     if existsb (String.eqb (fst kv)) UsersRoutes.allowedFields
                     then Js.obj_set (fst kv) (snd kv) updates
                     else updates) body acc)
             = match Js.obj_get k body with
               | Some v => Some v
               | None => Js.obj_get k acc
               end).
  { induction body as [|[k1 v1] body IH]; intros acc; [reflexivity|].
    cbn [map fst] in U. apply NoDup_cons_iff in U as [Hk U].
    cbn [fold_left fst snd Js.obj_get]. rewrite (IH U).
    destruct (String.eqb_spec k k1) as [->|Hne].
    - rewrite (obj_get_None k1 body Hk).
      assert (E : existsb (String.eqb k1) UsersRoutes.allowedFields = true).
      { apply existsb_exists. exists k1. split; [exact A | apply String.eqb_refl]. }
      rewrite E. apply obj_get_set_same.
    - destruct (Js.obj_get k body); [reflexivity|].
      destruct (existsb _ _); [now apply obj_get_set_other | reflexivity]. }
  rewrite G. now destruct (Js.obj_get k body).
Qed.

(** X13: a profile update answers 400 exactly when the body holds an
    e-mail address that is not empty, differs from the caller's and
    belongs to a user already; the database is then left as it is. The
    keys of the body are distinct. *)
Theorem update_profile_refuses_a_taken_email
    stored emailTaken refused caller callerEmail body db :
  NoDup (map fst body) ->
  let out :=
    UsersRoutes.updateProfile stored emailTaken refused caller callerEmail
      body db in
  ((exists e, Js.obj_get "email" body = Some e /\ e <> "" /\ e <> callerEmail
              /\ emailTaken e (users db) = true)
   <-> exists msg data, fst out = UsersRoutes.Answer 400 false msg data)
  /\ ((exists msg data, fst out = UsersRoutes.Answer 400 false msg data) ->
      out = (UsersRoutes.Answer 400 false (Some "Email already exists")
                                UsersRoutes.NoUserData, db)).
Proof.
  intros U out. subst out. unfold UsersRoutes.updateProfile, UsersRoutes.emailConflict.
  rewrite (pickAllowed_get body "email" U) by (simpl; auto).
  destruct (Js.obj_get "email" body) as [e|] eqn:E.
  - destruct e as [|c e']; cbn [Js.truthy].
    + split; [split|].
      * intros (e & [= <-] & H & _). contradiction.
      * destruct (refused _ _ _); intros (msg & data & [=]).
      * destruct (refused _ _ _); intros (msg & data & [=]).
    + destruct (String.eqb_spec (String c e') callerEmail) as [->|Hne]; cbn [negb andb].
      * split; [split|].
        -- intros (e & [= <-] & _ & H & _). contradiction.
        -- destruct (refused _ _ _); intros (msg & data & [=]).
        -- destruct (refused _ _ _); intros (msg & data & [=]).
      * destruct (emailTaken (String c e') (users db)) eqn:T.
        -- split; [split|]; [| | reflexivity].
           ++ intros _. eexists _, _. reflexivity.
           ++ intros _. exists (String c e'). split; [reflexivity|].
              split; [discriminate|]. split; [exact Hne | exact T].
        -- split; [split|].
           ++ intros (e & [= <-] & _ & _ & H). congruence.
           ++ destruct (refused _ _ _); intros (msg & data & [=]).
           ++ destruct (refused _ _ _); intros (msg & data & [=]).
  - cbn [Js.truthy]. split; [split|].
    + intros (e & [=] & _).
    + destruct (refused _ _ _); intros (msg & data & [=]).
    + destruct (refused _ _ _); intros (msg & data & [=]).
Qed.

Lemma update_profile_refuses_a_taken_email_witness :
  let out :=
    UsersRoutes.updateProfile Fixtures.stored Fixtures.emailTaken
      Fixtures.refused Sample.ann "ann@x.com"
      [("email", "bob@x.com"); ("role", "admin")] Sample.db in
  ((exists e, Js.obj_get "email" [("email", "bob@x.com"); ("role", "admin")]
              = Some e
              /\ e <> "" /\ e <> "ann@x.com"
              /\ Fixtures.emailTaken e (users Sample.db) = true)
   <-> exists msg data, fst out = UsersRoutes.Answer 400 false msg data)
  /\ ((exists msg data, fst out = UsersRoutes.Answer 400 false msg data) ->
      out = (UsersRoutes.Answer 400 false (Some "Email already exists")
                                UsersRoutes.NoUserData, Sample.db)).
Proof.
  apply (update_profile_refuses_a_taken_email Fixtures.stored Fixtures.emailTaken
           Fixtures.refused Sample.ann "ann@x.com"
           [("email", "bob@x.com"); ("role", "admin")] Sample.db).
  simpl. repeat (constructor; [simpl; intuition discriminate|]). constructor.
Defined.

(** ** PUT /api/users/change-password *)

Lemma find_update_first {A : Type} (p : A -> bool) f l x :
  (forall y, p (f y) = p y) ->
  List.find p l = Some x -> List.find p (Mongo.update_first p f l) = Some (f x).
Proof.
  intros Hp. induction l as [|y l IH]; simpl; [discriminate|].
  destruct (p y) eqn:E; simpl.
  - intros [= ->]. now rewrite Hp, E.
  - rewrite E. exact IH.
Qed.


(** X15: after a password change that answers 200, the record of the
    caller holds what the model stores for the new password, and the new
    password is the one that matches from then on. The model's check
    accepts a password against what the model stores for it. *)
Theorem change_password_then_the_new_password_matches
    matchPassword hashed validOnSave caller current new db msg data :
  (forall p, matchPassword p (hashed p) = true) ->
  fst (UsersRoutes.changePassword matchPassword hashed validOnSave caller
         current new db)
  = UsersRoutes.Answer 200 true msg data ->
  exists u,
    UsersRoutes.findById caller
      (users (snd (UsersRoutes.changePassword matchPassword hashed validOnSave
                     caller current new db)))
    = Some u
    /\ UserDoc.password u = hashed new
    /\ matchPassword new (UserDoc.password u) = true.
Proof.
  intros Hm. unfold UsersRoutes.changePassword.
  destruct (UsersRoutes.findById caller (users db)) as [u|] eqn:F; [|discriminate].
  destruct (matchPassword current (UserDoc.password u)); [|discriminate].
  destruct (validOnSave _); [|discriminate]. intros _. cbn [snd users].
  exists (UsersRoutes.set_password (hashed new) u). split.
  - unfold UsersRoutes.findById in *. apply find_update_first; [|exact F].
    intros y. reflexivity.
  - split; [reflexivity | apply Hm].
Qed.

Lemma change_password_then_the_new_password_matches_witness :
  exists u,
    UsersRoutes.findById Sample.ann
      (users (snd (UsersRoutes.changePassword Fixtures.matchPassword
                     Fixtures.hashed Fixtures.validOnSave Sample.ann
                     "hash" "Password123" Sample.db)))
    = Some u
    /\ UserDoc.password u = Fixtures.hashed "Password123"
    /\ Fixtures.matchPassword "Password123" (UserDoc.password u) = true.
Proof.
  apply (change_password_then_the_new_password_matches Fixtures.matchPassword
           Fixtures.hashed Fixtures.validOnSave Sample.ann "hash" "Password123"
           Sample.db (Some "Password changed successfully") UsersRoutes.NoUserData).
  - intros p. unfold Fixtures.matchPassword, Fixtures.hashed. apply String.eqb_refl.
  - reflexivity.
Defined.

(** ** frontend/lib/api-client.ts *)

Lemma removeItem_get k o : Js.obj_get k (ApiClient.removeItem k o) = None.
Proof.
  induction o as [|[k' v] o IH]; simpl; [reflexivity|].
  destruct (String.eqb k k') eqn:E; [exact IH|]. simpl. now rewrite E.
Qed.

Lemma setToken_in_sync t st : ApiClient.in_sync (ApiClient.setToken t st).
Proof.
  unfold ApiClient.in_sync, ApiClient.setToken. cbn [ApiClient.window ApiClient.token].
  intros b. destruct (ApiClient.window st) as [w|]; [|discriminate].
  intros [= <-]. cbn [ApiClient.localStorage]. now rewrite obj_get_set_same.
Qed.

Lemma clearToken_in_sync st : ApiClient.in_sync (ApiClient.clearToken st).
Proof.
  unfold ApiClient.in_sync, ApiClient.clearToken. cbn [ApiClient.window ApiClient.token].
  intros b. destruct (ApiClient.window st) as [w|]; [|discriminate].
  intros [= <-]. cbn [ApiClient.localStorage]. now rewrite removeItem_get.
Qed.

Lemma onError_in_sync status st :
  ApiClient.in_sync st -> ApiClient.in_sync (ApiClient.onError status st).
Proof.
  intros H. unfold ApiClient.onError.
  destruct (ApiClient.is401 status); [|exact H].
  pose proof (clearToken_in_sync st) as C. unfold ApiClient.in_sync in *.
  cbn [ApiClient.window ApiClient.token]. intros b.
  destruct (ApiClient.window (ApiClient.clearToken st)) as [w|] eqn:W; [|discriminate].
  intros [= <-]. cbn [ApiClient.localStorage]. now apply C.
Qed.

Lemma construct_in_sync w : ApiClient.in_sync (ApiClient.construct w).
Proof.
  unfold ApiClient.in_sync, ApiClient.construct. destruct w as [b|]; [|discriminate].
  cbn [ApiClient.window ApiClient.token]. intros b' [= <-].
  now destruct (Js.obj_get "auth_token" (ApiClient.localStorage b)) as [[|c s]|].
Qed.

Lemma step_in_sync st c :
  ApiClient.in_sync st -> ApiClient.in_sync (ApiClient.step st c).
Proof.
  intros H. destruct c as [t| |r|r|r|r]; cbn [ApiClient.step].
  - apply setToken_in_sync.
  - apply clearToken_in_sync.
  - unfold ApiClient.login. destruct r as [d|status]; [|now apply onError_in_sync].
    destruct (Js.truthy (ApiClient.auth_token d)); [|exact H].
    destruct (ApiClient.auth_success d); [apply setToken_in_sync | exact H].
  - unfold ApiClient.signup, ApiClient.login.
    destruct r as [d|status]; [|now apply onError_in_sync].
    destruct (Js.truthy (ApiClient.auth_token d)); [|exact H].
    destruct (ApiClient.auth_success d); [apply setToken_in_sync | exact H].
  - unfold ApiClient.logout. destruct r; apply clearToken_in_sync.
  - unfold ApiClient.request. destruct r; [exact H | now apply onError_in_sync].
Qed.

(** X16: in a browser, the token of the client and the token in the
    local storage agree, an empty token counting as none, when the client
    is constructed and after every sequence of calls of its methods,
    whatever the server answers. *)
Theorem api_client_token_agrees_with_storage w calls :
  ApiClient.in_sync (ApiClient.run w calls).
Proof.
  unfold ApiClient.run. generalize (construct_in_sync w).
  generalize (ApiClient.construct w). induction calls as [|c calls IH]; intros st H.
  - exact H.
  - cbn [fold_left]. apply IH, step_in_sync, H.
Qed.

Lemma cleared_then_constructed s :
  ApiClient.getToken
    (ApiClient.construct (ApiClient.window (ApiClient.clearToken s)))
  = None.
Proof.
  unfold ApiClient.clearToken, ApiClient.construct. cbn [ApiClient.window].
  destruct (ApiClient.window s) as [b|]; [|reflexivity].
  cbn [option_map ApiClient.getToken ApiClient.token ApiClient.localStorage].
  now rewrite removeItem_get.
Qed.

(** X17: after a logout, whether the request succeeds or fails, and
    after any request that fails with status 401, the client holds no
    token, sends no [Authorization] header and a client constructed anew
    on this browser holds none; the 401 also sends the browser to
    [/login]. A request that fails with another status leaves the client
    as it is. *)
Theorem api_client_logout_and_401_clear_the_token (r : ApiClient.Http unit)
    status st :
  (let st' := ApiClient.logout r st in
   ApiClient.getToken st' = None /\ ApiClient.authorization st' = None
   /\ ApiClient.getToken (ApiClient.construct (ApiClient.window st')) = None)
  /\ (let st' := ApiClient.request (@ApiClient.Rejected unit (Some 401%nat)) st in
      ApiClient.getToken st' = None /\ ApiClient.authorization st' = None
      /\ ApiClient.getToken (ApiClient.construct (ApiClient.window st')) = None
      /\ forall b, ApiClient.window st' = Some b -> ApiClient.href b = "/login")
  /\ (status <> Some 401%nat ->
      ApiClient.request (@ApiClient.Rejected unit status) st = st).
Proof.
  split; [|split].
  - unfold ApiClient.logout. destruct r; cbv zeta;
      (split; [reflexivity|]; split; [reflexivity | apply cleared_then_constructed]).
  - cbv zeta. unfold ApiClient.request, ApiClient.onError.
    change (ApiClient.is401 (Some 401%nat)) with true. cbv iota zeta.
    split; [reflexivity|]. split; [reflexivity|]. split.
    + pose proof (cleared_then_constructed st) as Hc.
      unfold ApiClient.clearToken, ApiClient.construct in *.
      cbn [ApiClient.window ApiClient.token] in *.
      destruct (ApiClient.window st) as [b|]; [|reflexivity].
      cbn [option_map ApiClient.localStorage] in *. exact Hc.
    + cbn [ApiClient.window ApiClient.clearToken]. intros b.
      destruct (ApiClient.window st) as [w|]; cbn [option_map]; [|discriminate].
      now intros [= <-].
  - intros H. unfold ApiClient.request, ApiClient.onError, ApiClient.is401.
    destruct status as [n|]; [|reflexivity].
    destruct (Nat.eqb_spec n 401) as [->|_]; [contradiction | reflexivity].
Qed.

(** X18: [setToken(t)] in a browser survives a reload: a client
    constructed anew on the same browser holds [t] and sends it as
    [Bearer t], provided [t] is not empty; an empty token is stored but
    not loaded again, and no header is sent for it. *)
Theorem api_client_token_survives_a_reload t st b :
  ApiClient.window st = Some b ->
  let reloaded :=
    ApiClient.construct (ApiClient.window (ApiClient.setToken t st)) in
  ApiClient.getToken (ApiClient.setToken t st) = Some t
  /\ (t <> "" ->
      ApiClient.getToken reloaded = Some t
      /\ ApiClient.authorization reloaded = Some ("Bearer " ++ t))
  /\ (t = "" ->
      ApiClient.getToken reloaded = None
      /\ ApiClient.authorization (ApiClient.setToken t st) = None).
Proof.
  intros W reloaded. subst reloaded. unfold ApiClient.setToken. rewrite W.
  cbn [option_map ApiClient.window ApiClient.construct ApiClient.localStorage
       ApiClient.getToken ApiClient.token ApiClient.authorization].
  rewrite obj_get_set_same. split; [reflexivity|]. split.
  - intros Ht. rewrite (truthy_Some t Ht). split; [reflexivity|].
    unfold ApiClient.authorization. cbn [ApiClient.token].
    now rewrite (truthy_Some t Ht).
  - intros ->. split; reflexivity.
Qed.

Lemma api_client_token_survives_a_reload_witness :
  let st := ApiClient.construct (Some Fixtures.browser) in
  let reloaded :=
    ApiClient.construct (ApiClient.window (ApiClient.setToken "abc" st)) in
  ApiClient.getToken (ApiClient.setToken "abc" st) = Some "abc"
  /\ ("abc" <> "" ->
      ApiClient.getToken reloaded = Some "abc"
      /\ ApiClient.authorization reloaded = Some ("Bearer " ++ "abc"))
  /\ ("abc" = "" ->
      ApiClient.getToken reloaded = None
      /\ ApiClient.authorization (ApiClient.setToken "abc" st) = None).
Proof.
  apply (api_client_token_survives_a_reload "abc"
           (ApiClient.construct (Some Fixtures.browser)) Fixtures.browser).
  reflexivity.
Defined.

(** X19: a login or signup whose request is fulfilled stores the token
    of the answer when the answer says [success] and carries a token that
    is not empty, and the requests that follow carry it as
    [Bearer token]; in every other case the client stays as it was. *)
Theorem api_client_login_stores_the_token d st :
  let st' := ApiClient.login (ApiClient.Fulfilled d) st in
  (forall t, ApiClient.auth_success d = true ->
             ApiClient.auth_token d = Some t -> t <> "" ->
             st' = ApiClient.setToken t st
             /\ ApiClient.authorization st' = Some ("Bearer " ++ t))
  /\ (ApiClient.auth_success d = false
      \/ ApiClient.auth_token d = None
      \/ ApiClient.auth_token d = Some "" ->
      st' = st)
  /\ ApiClient.signup (ApiClient.Fulfilled d) st = st'.
Proof.
  intros st'. subst st'. unfold ApiClient.signup, ApiClient.login. split; [|split].
  - intros t Hs Ht Hne. rewrite Ht, (truthy_Some t Hne), Hs.
    split; [reflexivity|]. unfold ApiClient.authorization, ApiClient.setToken.
    cbn [ApiClient.token]. now rewrite (truthy_Some t Hne).
  - intros [H|[H|H]]; rewrite H; [|reflexivity|reflexivity].
    now destruct (Js.truthy (ApiClient.auth_token d)).
  - reflexivity.
Qed.
